(** * AdSense eligibility checker: the analysis pipeline of [server.js] and
      [crawler.js], embedded in Rocq.

    The embedding follows the JavaScript source function by function.

    - JavaScript Numbers that take part in non-integer arithmetic (the
      average paragraph length, the three accessibility ratios, the domain
      age quotient, the weighted final score, the progress percentage) are
      IEEE 754 binary64 values: [spec_float] with the Standard Library's
      reference implementation of the binary64 operations
      (round to nearest, ties to even).  [1 / 0] is [Infinity] and an
      invalid date gives [NaN], as in the language.
    - Quantities that are integers by construction ([.length] of a
      selection, the point totals of the scorers) are [Z]; they enter
      floating-point arithmetic through [JS.of_Z].
    - [Math.round] returns an integral Number, [NaN] or an infinity: its
      result type is [JS.rounded].  The sign of a zero result is dropped
      (nothing in the program observes it).
    - Strings are sequences of code units restricted to Latin-1.
    - [cheerio], [axios] and [whois] are libraries outside the repository:
      a parsed document is the record of the selections the program
      reads from it, and the two network calls are functions of the
      environment that either resolve with a value or reject with a
      message.
    - The control flow of [analyzeWebsite] and of the request handler
      (progress callbacks, [try]/[catch], [throw]) is a state and error
      monad over the stream of server-sent events and the log of
      external calls. *)

From Stdlib Require Import ZArith List String Ascii Bool Lia SpecFloat DecimalString.
Import ListNotations.
Open Scope string_scope.
Open Scope Z_scope.

(* ================================================================== *)
(** ** JavaScript values *)

Module JS.

(** *** Numbers *)

Definition number := spec_float.

Definition prec : Z := 53.
Definition emax : Z := 1024.

Definition add : number -> number -> number := SFadd prec emax.
Definition sub : number -> number -> number := SFsub prec emax.
Definition mul : number -> number -> number := SFmul prec emax.
Definition div : number -> number -> number := SFdiv prec emax.

(** The Number nearest to an integer (exact below [2^53]). *)
Definition of_Z (z : Z) : number := binary_normalize prec emax z 0 false.

(** A decimal literal with two fractional digits, such as [0.15]: the
    binary64 value nearest to [hundredths / 100].  Division of two
    exactly represented integers is correctly rounded, so this is the
    value the literal denotes. *)
Definition lit100 (hundredths : Z) : number := div (of_Z hundredths) (of_Z 100).

Definition NaN : number := S754_nan.
Definition Infinity : number := S754_infinity false.

(** [x >= y] on Numbers: false as soon as one side is [NaN]. *)
Definition ge (x y : number) : bool := SFleb y x.

(** The values [Math.round] can return. *)
Inductive rounded : Type :=
| RNaN
| RInf (negative : bool)
| RInt (z : Z).

(** [Math.round x]: the integer nearest to [x], ties towards [+Infinity],
    that is [floor (x + 1/2)] computed exactly; [NaN] and the infinities
    are returned unchanged.  A finite [x] is [(-1)^s * m * 2^e]. *)
Definition Math_round (x : number) : rounded :=
  match x with
  | S754_nan => RNaN
  | S754_infinity s => RInf s
  | S754_zero _ => RInt 0
  | S754_finite s m e =>
      let n := if s then Z.neg m else Z.pos m in
      if 0 <=? e then RInt (n * 2 ^ e)
      else RInt ((2 * n + 2 ^ (- e)) / 2 ^ (1 - e))
  end.

(** Comparison of a rounded Number with an integer literal. *)
Definition rge (x : rounded) (k : Z) : bool :=
  match x with
  | RNaN => false
  | RInf negative => negb negative
  | RInt z => k <=? z
  end.

Definition rgt (x : rounded) (k : Z) : bool :=
  match x with
  | RNaN => false
  | RInf negative => negb negative
  | RInt z => k <? z
  end.

(** *** Strings *)

Definition Z_toString (z : Z) : string := NilZero.string_of_int (Z.to_int z).

(** Template-literal conversion of a rounded Number. *)
Definition toString (x : rounded) : string :=
  match x with
  | RNaN => "NaN"
  | RInf false => "Infinity"
  | RInf true => "-Infinity"
  | RInt z => Z_toString z
  end.

(** Truthiness of a string, and of an attribute that may be [undefined]. *)
Definition truthy (s : string) : bool :=
  match s with
  | EmptyString => false
  | String _ _ => true
  end.

Definition truthy_attr (a : option string) : bool :=
  match a with
  | None => false
  | Some s => truthy s
  end.

Definition startsWith (s p : string) : bool := String.prefix p s.

Fixpoint includes (s needle : string) : bool :=
  String.prefix needle s
  || match s with
     | EmptyString => false
     | String _ rest => includes rest needle
     end.

(** Latin-1 lower-casing: [A-Z] and the accented capitals [192-222]
    except the multiplication sign [215]. *)
Definition lower_char (c : ascii) : ascii :=
  let n := N.to_nat (N_of_ascii c) in
  if ((65 <=? n) && (n <=? 90))%nat
     || ((192 <=? n) && (n <=? 222) && negb (n =? 215))%nat
  then ascii_of_nat (n + 32) else c.

Fixpoint toLowerCase (s : string) : string :=
  match s with
  | EmptyString => EmptyString
  | String c rest => String (lower_char c) (toLowerCase rest)
  end.

(** The class [\s] on Latin-1: TAB, LF, VT, FF, CR, space, NBSP. *)
Definition isWhiteSpace (c : ascii) : bool :=
  let n := N.to_nat (N_of_ascii c) in
  (((9 <=? n) && (n <=? 13)) || (n =? 32) || (n =? 160))%nat.

Fixpoint trimStart (s : string) : string :=
  match s with
  | EmptyString => EmptyString
  | String c rest => if isWhiteSpace c then trimStart rest else s
  end.

Fixpoint rev_string (s acc : string) : string :=
  match s with
  | EmptyString => acc
  | String c rest => rev_string rest (String c acc)
  end.

Definition trim (s : string) : string :=
  rev_string (trimStart (rev_string (trimStart s) "")) "".

(** [s.split(/\s+/)]: the pieces of [s] between maximal runs of white
    space.  [cur] is the piece being read, [in_ws] tells whether the
    previous code unit was white space.  The empty string gives one
    empty piece. *)
Fixpoint split_ws_from (s cur : string) (in_ws : bool) : list string :=
  match s with
  | EmptyString => [cur]
  | String c rest =>
      if isWhiteSpace c
      then (if in_ws then split_ws_from rest cur true
            else cur :: split_ws_from rest "" true)
      else split_ws_from rest (cur ++ String c "")%string false
  end.

Definition split_ws (s : string) : list string := split_ws_from s "" false.

(** [array.length]. *)
Definition length {A : Type} (l : list A) : Z := Z.of_nat (List.length l).

End JS.

(* ================================================================== *)
(** ** Data model *)

Inductive Status : Type := passed | warning | failed.

Inductive Value : Type :=
| VUndefined
| VBoolean (b : bool)
| VNumber (n : JS.rounded)
| VString (s : string).

Record CriterionResult : Type := { value : Value; status : Status }.

Definition count_value (n : Z) : Value := VNumber (JS.RInt n).

Definition attr_value (a : option string) : Value :=
  match a with
  | None => VUndefined
  | Some s => VString s
  end.

(** What the program reads from the parsed page.  Each field is the
    result of one selection: the text of a selection, the attribute of
    its first element, its number of elements, or its elements. *)

Record Img : Type := { img_alt : option string; img_title : option string }.

Record Anchor : Type := { a_href : option string; a_text : string }.

(** A form with the number of [label] elements found inside it. *)
Record Form : Type := { form_labels : nat }.

Record Document : Type := {
  sel_title_text : string;                 (* $('title').text() *)
  sel_description : option string;         (* $('meta[name="description"]').attr('content') *)
  sel_h1 : nat;
  sel_h2 : nat;
  sel_h3 : nat;
  sel_img : list Img;
  sel_a : list Anchor;
  sel_p : list string;                     (* text of each p element *)
  sel_viewport : nat;
  sel_robots : nat;
  sel_keywords : nat;
  sel_author : nat;
  sel_og : nat;                            (* $('meta[property^="og:"]') *)
  sel_script : nat;
  sel_stylesheet : nat;                    (* $('link[rel="stylesheet"]') *)
  sel_form : list Form
}.

(** The response headers the program looks up ([undefined] when absent). *)
Record Headers : Type := {
  strict_transport_security : option string;
  x_xss_protection : option string;
  content_security_policy : option string
}.

Record Response : Type := { data : Document; headers : Headers }.

(** The [creationDate] property of the value the lookup resolves with,
    as [new Date] sees it: absent, a text that is not a date, or a date
    given by its time value in milliseconds (at most 8.64e15 in absolute
    value, hence exactly representable). *)
Inductive CreationDate : Type :=
| FieldMissing
| FieldUnparsable
| FieldDate (ms : Z).

(** The value the lookup resolves with: [null]/[undefined], or a value
    whose [creationDate] property can be read. *)
Inductive WhoisData : Type :=
| WhoisNullish
| WhoisRecord (creationDate : CreationDate).

Inductive Outcome (A : Type) : Type :=
| Resolved (a : A)
| Rejected (message : string).
Arguments Resolved {A} a.
Arguments Rejected {A} message.

(** The world outside the program. *)
Record Env : Type := {
  axios_get : string -> Outcome Response;
  whois_lookup : string -> Outcome WhoisData;
  clock : Z                                 (* time value of [new Date()] *)
}.

(** *** The report *)

Record SeoDetails : Type := {
  seo_title : CriterionResult;
  seo_metaDescription : CriterionResult;
  seo_h1Count : CriterionResult;
  seo_h2Count : CriterionResult;
  seo_h3Count : CriterionResult;
  seo_internalLinks : CriterionResult;
  seo_externalLinks : CriterionResult
}.

Record RequiredPagesDetails : Type := {
  rp_privacyPolicy : CriterionResult;
  rp_contactPage : CriterionResult;
  rp_aboutPage : CriterionResult;
  rp_termsPage : CriterionResult
}.

Record SecurityDetails : Type := {
  sec_https : CriterionResult;
  sec_hsts : CriterionResult;
  sec_xssProtection : CriterionResult;
  sec_csp : CriterionResult
}.

Record DomainDetails : Type := { dom_age : CriterionResult }.

Record ContentDetails : Type := {
  cnt_wordCount : CriterionResult;
  cnt_avgParagraphLength : CriterionResult
}.

Record ImagesDetails : Type := {
  img_total : CriterionResult;
  img_withAlt : CriterionResult;
  img_withTitle : CriterionResult
}.

Record MetaDetails : Type := {
  meta_viewport : CriterionResult;
  meta_robots : CriterionResult;
  meta_keywords : CriterionResult;
  meta_author : CriterionResult;
  meta_socialMeta : CriterionResult
}.

Record Performance : Type := {
  perf_loadTime : CriterionResult;
  perf_scripts : CriterionResult;
  perf_stylesheets : CriterionResult
}.

Record Accessibility : Type := {
  acc_images : CriterionResult;
  acc_links : CriterionResult;
  acc_forms : CriterionResult
}.

Record Details : Type := {
  seo : SeoDetails;
  requiredPages : RequiredPagesDetails;
  security : SecurityDetails;
  domain : DomainDetails;
  content : ContentDetails;
  images : ImagesDetails;
  meta : MetaDetails;
  performance : Performance;
  accessibility : Accessibility
}.

Record Report : Type := { score : JS.rounded; details : Details }.

(** *** Server-sent events and external calls *)

Inductive Event : Type :=
| progress_event (progress : JS.rounded) (step : Z)
| complete_event (result : Report)
| error_event (message : string).

Inductive Call : Type :=
| call_axios_get (url : string)
| call_whois_lookup (addr : string).

Record World : Type := { sse : list Event; calls : list Call }.

Definition empty_world : World := {| sse := []; calls := [] |}.

(* ================================================================== *)
(** ** State and error monad *)

Inductive Res (A : Type) : Type :=
| Ok (a : A)
| Throw (message : string).
Arguments Ok {A} a.
Arguments Throw {A} message.

Definition M (A : Type) : Type := World -> Res A * World.

Definition ret {A : Type} (a : A) : M A := fun w => (Ok a, w).

Definition throw {A : Type} (message : string) : M A := fun w => (Throw message, w).

Definition bind {A B : Type} (m : M A) (k : A -> M B) : M B :=
  fun w =>
    match m w with
    | (Ok a, w') => k a w'
    | (Throw message, w') => (Throw message, w')
    end.

Definition try_catch {A : Type} (body : M A) (handler : string -> M A) : M A :=
  fun w =>
    match body w with
    | (Ok a, w') => (Ok a, w')
    | (Throw message, w') => handler message w'
    end.

Declare Scope js_scope.
Delimit Scope js_scope with js.
Notation "x <- m ;; k" := (bind m (fun x => k))
  (at level 100, m at next level, right associativity) : js_scope.
Notation "m ;; k" := (bind m (fun _ => k))
  (at level 100, right associativity) : js_scope.
Open Scope js_scope.

(** [await] of an external call: the call is logged, then its outcome
    is returned or thrown. *)
Definition await {A : Type} (c : Call) (o : Outcome A) : M A :=
  fun w =>
    let w' := {| sse := sse w; calls := calls w ++ [c] |} in
    match o with
    | Resolved a => (Ok a, w')
    | Rejected message => (Throw message, w')
    end.

(** [sendSSE(res, data)]: one more event on the stream. *)
Definition sendSSE (e : Event) : M unit :=
  fun w => (Ok tt, {| sse := sse w ++ [e]; calls := calls w |}).

(* ================================================================== *)
(** ** crawler.js: the nine scorers *)

Definition calculateSEOScore (title : string) (metaDescription : option string)
    (h1Count h2Count h3Count internalLinks externalLinks : Z) : Z :=
  let score := 0 in
  let score := if JS.truthy title then score + 20 else score in
  let score := if JS.truthy_attr metaDescription then score + 20 else score in
  let score := if h1Count >? 0 then score + 15 else score in
  let score := if h2Count >? 0 then score + 10 else score in
  let score := if h3Count >? 0 then score + 5 else score in
  let score := if internalLinks >? 0 then score + 15 else score in
  let score := if externalLinks >? 0 then score + 15 else score in
  score.

Definition calculateRequiredPagesScore
    (hasPrivacyPolicy hasContactPage hasAboutPage hasTermsPage : bool) : Z :=
  let score := 0 in
  let score := if hasPrivacyPolicy then score + 40 else score in
  let score := if hasContactPage then score + 20 else score in
  let score := if hasAboutPage then score + 20 else score in
  let score := if hasTermsPage then score + 20 else score in
  score.

Definition calculateSecurityScore (isHttps hasHsts hasXssProtection hasCsp : bool) : Z :=
  let score := 0 in
  let score := if isHttps then score + 40 else score in
  let score := if hasHsts then score + 20 else score in
  let score := if hasXssProtection then score + 20 else score in
  let score := if hasCsp then score + 20 else score in
  score.

Definition calculateDomainAgeScore (age : JS.rounded) : Z :=
  if JS.rge age 12 then 100
  else if JS.rge age 6 then 80
  else if JS.rge age 3 then 60
  else if JS.rge age 1 then 40
  else 20.

Definition calculateContentScore (wordCount : Z) (avgParagraphLength : JS.number) : Z :=
  let score := 0 in
  let score :=
    if wordCount >=? 1000 then score + 50
    else if wordCount >=? 500 then score + 30
    else if wordCount >=? 300 then score + 20
    else score + 10 in
  let score :=
    if JS.ge avgParagraphLength (JS.of_Z 100) then score + 50
    else if JS.ge avgParagraphLength (JS.of_Z 50) then score + 30
    else if JS.ge avgParagraphLength (JS.of_Z 30) then score + 20
    else score + 10 in
  score.

Definition calculateImageScore (total withAlt withTitle : Z) : Z :=
  let score := 0 in
  let score := if total >? 0 then score + 40 else score in
  let score := if withAlt >? 0 then score + 30 else score in
  let score := if withTitle >? 0 then score + 30 else score in
  score.

Definition calculateMetaScore
    (hasViewport hasRobots hasKeywords hasAuthor hasSocialMeta : bool) : Z :=
  let score := 0 in
  let score := if hasViewport then score + 30 else score in
  let score := if hasRobots then score + 20 else score in
  let score := if hasKeywords then score + 15 else score in
  let score := if hasAuthor then score + 15 else score in
  let score := if hasSocialMeta then score + 20 else score in
  score.

(** [if (s === 'passed') score += p; else if (s === 'warning') score += w]. *)
Definition add_by_status (s : Status) (score p w : Z) : Z :=
  match s with
  | passed => score + p
  | warning => score + w
  | failed => score
  end.

Definition calculatePerformanceScore (performance : Performance) : JS.rounded :=
  let score := 0 in
  let score := add_by_status (status (perf_scripts performance)) score 30 15 in
  let score := add_by_status (status (perf_stylesheets performance)) score 30 15 in
  let score := add_by_status (status (perf_loadTime performance)) score 40 20 in
  JS.Math_round (JS.of_Z score).

Definition calculateAccessibilityScore (accessibility : Accessibility) : JS.rounded :=
  let score := 0 in
  let score := add_by_status (status (acc_images accessibility)) score 40 20 in
  let score := add_by_status (status (acc_links accessibility)) score 30 15 in
  let score := add_by_status (status (acc_forms accessibility)) score 30 15 in
  JS.Math_round (JS.of_Z score).

(* ================================================================== *)
(** ** crawler.js: performance and accessibility analysis

    Both functions wrap their body in a [try] whose body only reads the
    document; on the record of selections nothing can throw, so the
    ['N/A'] defaults are never returned. *)

Definition analyzePerformance (doc : Document) : Performance :=
  let scriptCount := Z.of_nat (sel_script doc) in
  let scripts :=
    {| value := VString (JS.Z_toString scriptCount ++ " scripts found");
       status := if scriptCount >? 10 then warning else passed |} in
  let stylesheetCount := Z.of_nat (sel_stylesheet doc) in
  let stylesheets :=
    {| value := VString (JS.Z_toString stylesheetCount ++ " stylesheets found");
       status := if stylesheetCount >? 5 then warning else passed |} in
  let totalResources := scriptCount + stylesheetCount in
  let estimatedLoadTime :=
    JS.Math_round (JS.div (JS.mul (JS.of_Z totalResources) (JS.of_Z 100)) (JS.of_Z 1000)) in
  let loadTime :=
    {| value := VString (JS.toString estimatedLoadTime ++ " seconds (estimated)");
       status := if JS.rgt estimatedLoadTime 3 then warning else passed |} in
  {| perf_loadTime := loadTime; perf_scripts := scripts; perf_stylesheets := stylesheets |}.

(** [total > 0 ? Math.round((part / total) * 100) : 0]. *)
Definition percentage (part total : Z) : JS.rounded :=
  if total >? 0
  then JS.Math_round (JS.mul (JS.div (JS.of_Z part) (JS.of_Z total)) (JS.of_Z 100))
  else JS.RInt 0.

Definition percentage_status (p : JS.rounded) : Status :=
  if JS.rge p 90 then passed else if JS.rge p 50 then warning else failed.

Definition percentage_text (p : JS.rounded) (what : string) (part total : Z) : string :=
  JS.toString p ++ what ++ " (" ++ JS.Z_toString part ++ "/" ++ JS.Z_toString total ++ ")".

Definition has_alt (img : Img) : bool := JS.truthy_attr (img_alt img).
Definition has_title (img : Img) : bool := JS.truthy_attr (img_title img).
Definition has_text (link : Anchor) : bool := JS.truthy (JS.trim (a_text link)).
Definition has_label (form : Form) : bool := (Z.of_nat (form_labels form) >? 0).

Definition analyzeAccessibility (doc : Document) : Accessibility :=
  let images := sel_img doc in
  let imagesWithAlt := JS.length (filter has_alt images) in
  let totalImages := JS.length images in
  let altTextPercentage := percentage imagesWithAlt totalImages in
  let links := sel_a doc in
  let linksWithText := JS.length (filter has_text links) in
  let totalLinks := JS.length links in
  let linkTextPercentage := percentage linksWithText totalLinks in
  let forms := sel_form doc in
  let formsWithLabels := JS.length (filter has_label forms) in
  let totalForms := JS.length forms in
  let formLabelPercentage := percentage formsWithLabels totalForms in
  {| acc_images :=
       {| value := VString (percentage_text altTextPercentage
                              "% of images have alt text" imagesWithAlt totalImages);
          status := percentage_status altTextPercentage |};
     acc_links :=
       {| value := VString (percentage_text linkTextPercentage
                              "% of links have descriptive text" linksWithText totalLinks);
          status := percentage_status linkTextPercentage |};
     acc_forms :=
       {| value := VString (percentage_text formLabelPercentage
                              "% of forms have labels" formsWithLabels totalForms);
          status := percentage_status formLabelPercentage |} |}.

(* ================================================================== *)
(** ** crawler.js: the signals read in steps 1 to 9 of [analyzeWebsite] *)

Definition formatUrl (url : string) : string :=
  if JS.startsWith url "http" then url else "http://" ++ url.

(** The callback of [links.filter] that selects the internal links. *)
Definition is_internal (formattedUrl : string) (el : Anchor) : bool :=
  match a_href el with
  | None => false
  | Some href =>
      JS.truthy href && (JS.startsWith href "/" || JS.includes href formattedUrl)
  end.

Definition internalLinks (formattedUrl : string) (doc : Document) : Z :=
  JS.length (filter (is_internal formattedUrl) (sel_a doc)).

Definition externalLinks (formattedUrl : string) (doc : Document) : Z :=
  JS.length (sel_a doc) - internalLinks formattedUrl doc.

(** The callback shared by the four required-page checks. *)
Definition href_mentions (word : string) (el : Anchor) : bool :=
  match a_href el with
  | None => false
  | Some href => JS.truthy href && JS.includes (JS.toLowerCase href) word
  end.

Definition has_link_to (word : string) (doc : Document) : bool :=
  JS.length (filter (href_mentions word) (sel_a doc)) >? 0.

Definition hasPrivacyPolicy : Document -> bool := has_link_to "privacy".
Definition hasContactPage : Document -> bool := has_link_to "contact".
Definition hasAboutPage : Document -> bool := has_link_to "about".
Definition hasTermsPage : Document -> bool := has_link_to "terms".

Definition defined (h : option string) : bool :=
  match h with
  | None => false
  | Some _ => true
  end.

(** [$('p').text()]: the texts of the selected elements, concatenated. *)
Definition paragraphs_text (doc : Document) : string :=
  fold_right String.append "" (sel_p doc).

Definition wordCount (doc : Document) : Z :=
  JS.length (JS.split_ws (paragraphs_text doc)).

Definition avgParagraphLength (doc : Document) : JS.number :=
  JS.div (JS.of_Z (wordCount doc)) (JS.of_Z (JS.length (sel_p doc))).

Definition imagesWithAlt (doc : Document) : Z := JS.length (filter has_alt (sel_img doc)).
Definition imagesWithTitle (doc : Document) : Z := JS.length (filter has_title (sel_img doc)).

(** [$(selector).length > 0]. *)
Definition present (n : nat) : bool := Z.of_nat n >? 0.

Definition hasViewport (doc : Document) : bool := present (sel_viewport doc).
Definition hasRobots (doc : Document) : bool := present (sel_robots doc).
Definition hasKeywords (doc : Document) : bool := present (sel_keywords doc).
Definition hasAuthor (doc : Document) : bool := present (sel_author doc).
Definition hasSocialMeta (doc : Document) : bool := present (sel_og doc).

(** *** Step 6: the age of the domain *)

(** Reading [whoisData.creationDate]: a [TypeError] when the value is
    [null] or [undefined]. *)
Definition get_creationDate (whoisData : WhoisData) : M CreationDate :=
  match whoisData with
  | WhoisNullish => throw "Cannot read properties of undefined (reading 'creationDate')"
  | WhoisRecord c => ret c
  end.

(** The time value of [new Date(creationDate)]: [NaN] for an invalid date. *)
Definition new_Date (c : CreationDate) : JS.number :=
  match c with
  | FieldMissing => JS.NaN
  | FieldUnparsable => JS.NaN
  | FieldDate ms => JS.of_Z ms
  end.

Definition month_ms : Z := 1000 * 60 * 60 * 24 * 30.

Definition months_between (now creationDate : JS.number) : JS.rounded :=
  JS.Math_round (JS.div (JS.sub now creationDate) (JS.of_Z month_ms)).

(** [let domainAge = 0; try { ... domainAge = ... } catch (error) { log }]. *)
Definition lookupDomainAge (env : Env) (formattedUrl : string) : M JS.rounded :=
  try_catch
    (whoisData <- await (call_whois_lookup formattedUrl) (whois_lookup env formattedUrl) ;;
     c <- get_creationDate whoisData ;;
     let creationDate := new_Date c in
     let now := JS.of_Z (clock env) in
     ret (months_between now creationDate))
    (fun _ => ret (JS.RInt 0)).

(** *** Step 12: the weighted sum *)

Definition weights : list (string * JS.number) :=
  [ ("seo", JS.lit100 25);
    ("requiredPages", JS.lit100 15);
    ("security", JS.lit100 15);
    ("domainAge", JS.lit100 10);
    ("content", JS.lit100 15);
    ("images", JS.lit100 10);
    ("meta", JS.lit100 10);
    ("performance", JS.lit100 10);
    ("accessibility", JS.lit100 10) ].

(** [weights[key]]; a missing key is [undefined], which multiplies to [NaN]. *)
Fixpoint lookup (key : string) (table : list (string * JS.number)) : JS.number :=
  match table with
  | [] => JS.NaN
  | (k, v) :: rest => if String.eqb k key then v else lookup key rest
  end.

(** A rounded Number used as a Number again. *)
Definition to_number (x : JS.rounded) : JS.number :=
  match x with
  | JS.RNaN => JS.NaN
  | JS.RInf negative => S754_infinity negative
  | JS.RInt z => JS.of_Z z
  end.

(** The facts the scorers and the report are computed from. *)
Record Facts : Type := {
  f_url : string;                         (* formattedUrl *)
  f_doc : Document;
  f_headers : Headers;
  f_domainAge : JS.rounded;
  f_performance : Performance;
  f_accessibility : Accessibility
}.

Definition hasHsts (f : Facts) : bool := defined (strict_transport_security (f_headers f)).
Definition hasXssProtection (f : Facts) : bool := defined (x_xss_protection (f_headers f)).
Definition hasCsp (f : Facts) : bool := defined (content_security_policy (f_headers f)).
Definition isHttps (f : Facts) : bool := JS.startsWith (f_url f) "https".

(** The [scores] object, in the order of its properties. *)
Definition scores (f : Facts) : list (string * JS.number) :=
  let doc := f_doc f in
  [ ("seo", JS.of_Z (calculateSEOScore (sel_title_text doc) (sel_description doc)
                       (Z.of_nat (sel_h1 doc)) (Z.of_nat (sel_h2 doc)) (Z.of_nat (sel_h3 doc))
                       (internalLinks (f_url f) doc) (externalLinks (f_url f) doc)));
    ("requiredPages", JS.of_Z (calculateRequiredPagesScore
                       (hasPrivacyPolicy doc) (hasContactPage doc)
                       (hasAboutPage doc) (hasTermsPage doc)));
    ("security", JS.of_Z (calculateSecurityScore
                       (isHttps f) (hasHsts f) (hasXssProtection f) (hasCsp f)));
    ("domainAge", JS.of_Z (calculateDomainAgeScore (f_domainAge f)));
    ("content", JS.of_Z (calculateContentScore (wordCount doc) (avgParagraphLength doc)));
    ("images", JS.of_Z (calculateImageScore (JS.length (sel_img doc))
                       (imagesWithAlt doc) (imagesWithTitle doc)));
    ("meta", JS.of_Z (calculateMetaScore
                       (hasViewport doc) (hasRobots doc) (hasKeywords doc)
                       (hasAuthor doc) (hasSocialMeta doc)));
    ("performance", to_number (calculatePerformanceScore (f_performance f)));
    ("accessibility", to_number (calculateAccessibilityScore (f_accessibility f))) ].

(** [Object.entries(scores).reduce((total, [key, score]) =>
      total + (score * weights[key]), 0)]. *)
Definition finalScore (f : Facts) : JS.number :=
  fold_left
    (fun total entry => JS.add total (JS.mul (snd entry) (lookup (fst entry) weights)))
    (scores f) (JS.of_Z 0).

(** *** The returned report *)

Definition pass_or (otherwise : Status) (b : bool) : Status :=
  if b then passed else otherwise.

Definition flag (otherwise : Status) (b : bool) : CriterionResult :=
  {| value := VBoolean b; status := pass_or otherwise b |}.

Definition counted (otherwise : Status) (n : Z) : CriterionResult :=
  {| value := count_value n; status := pass_or otherwise (n >? 0) |}.

Definition report (f : Facts) : Report :=
  let doc := f_doc f in
  let title := sel_title_text doc in
  let metaDescription := sel_description doc in
  let domainAge := f_domainAge f in
  {| score := JS.Math_round (finalScore f);
     details :=
       {| seo :=
            {| seo_title :=
                 {| value := VString title; status := pass_or failed (JS.truthy title) |};
               seo_metaDescription :=
                 {| value := attr_value metaDescription;
                    status := pass_or failed (JS.truthy_attr metaDescription) |};
               seo_h1Count := counted failed (Z.of_nat (sel_h1 doc));
               seo_h2Count := counted warning (Z.of_nat (sel_h2 doc));
               seo_h3Count := counted warning (Z.of_nat (sel_h3 doc));
               seo_internalLinks := counted warning (internalLinks (f_url f) doc);
               seo_externalLinks := counted warning (externalLinks (f_url f) doc) |};
          requiredPages :=
            {| rp_privacyPolicy := flag failed (hasPrivacyPolicy doc);
               rp_contactPage := flag failed (hasContactPage doc);
               rp_aboutPage := flag failed (hasAboutPage doc);
               rp_termsPage := flag warning (hasTermsPage doc) |};
          security :=
            {| sec_https := flag failed (isHttps f);
               sec_hsts := flag warning (hasHsts f);
               sec_xssProtection := flag warning (hasXssProtection f);
               sec_csp := flag warning (hasCsp f) |};
          domain :=
            {| dom_age :=
                 {| value := VString (JS.toString domainAge ++ " months");
                    status := pass_or failed (JS.rge domainAge 6) |} |};
          content :=
            {| cnt_wordCount :=
                 {| value := count_value (wordCount doc);
                    status := pass_or failed (wordCount doc >=? 500) |};
               cnt_avgParagraphLength :=
                 {| value := VNumber (JS.Math_round (avgParagraphLength doc));
                    status := pass_or warning (JS.ge (avgParagraphLength doc) (JS.of_Z 50)) |} |};
          images :=
            {| img_total := counted warning (JS.length (sel_img doc));
               img_withAlt := counted warning (imagesWithAlt doc);
               img_withTitle := counted warning (imagesWithTitle doc) |};
          meta :=
            {| meta_viewport := flag failed (hasViewport doc);
               meta_robots := flag warning (hasRobots doc);
               meta_keywords := flag warning (hasKeywords doc);
               meta_author := flag warning (hasAuthor doc);
               meta_socialMeta := flag warning (hasSocialMeta doc) |};
          performance := f_performance f;
          accessibility := f_accessibility f |} |}.

(* ================================================================== *)
(** ** crawler.js: [analyzeWebsite] *)

Definition Callback : Type := JS.rounded -> Z -> M unit.

Definition totalSteps : Z := 10.

(** [updateProgress(step, message)]; the callback is called only when
    there is one. *)
Definition updateProgress (onProgress : option Callback) (step : Z) : M unit :=
  let progress :=
    JS.Math_round (JS.mul (JS.div (JS.of_Z step) (JS.of_Z totalSteps)) (JS.of_Z 100)) in
  match onProgress with
  | Some callback => callback progress step
  | None => ret tt
  end.

(** A direct call [onProgress(progress, step)]: a [TypeError] when no
    callback was given. *)
Definition call_onProgress (onProgress : option Callback) (progress step : Z) : M unit :=
  match onProgress with
  | Some callback => callback (JS.RInt progress) step
  | None => throw "onProgress is not a function"
  end.

(** The body of [analyzeWebsite].  Steps 3 to 5 and 7 to 9 only read
    the document and the headers (the definitions above); their values
    are gathered in [facts] where the scores and the report use them. *)
Definition analyzeWebsite (env : Env) (url : string) (onProgress : option Callback)
    : M Report :=
  try_catch
    ((* Step 1: initial setup and URL formatting *)
     updateProgress onProgress 0 ;;
     let formattedUrl := formatUrl url in
     (* Step 2: fetch webpage content *)
     updateProgress onProgress 1 ;;
     response <- await (call_axios_get formattedUrl) (axios_get env formattedUrl) ;;
     let doc := data response in
     (* Steps 3 to 5: SEO, required pages, security *)
     updateProgress onProgress 2 ;;
     updateProgress onProgress 3 ;;
     updateProgress onProgress 4 ;;
     (* Step 6: domain age *)
     updateProgress onProgress 5 ;;
     domainAge <- lookupDomainAge env formattedUrl ;;
     (* Steps 7 to 9: content, images, meta tags *)
     updateProgress onProgress 6 ;;
     updateProgress onProgress 7 ;;
     updateProgress onProgress 8 ;;
     (* Step 10: performance *)
     updateProgress onProgress 8 ;;
     let performance := analyzePerformance doc in
     call_onProgress onProgress 80 8 ;;
     (* Step 11: accessibility *)
     updateProgress onProgress 9 ;;
     let accessibility := analyzeAccessibility doc in
     call_onProgress onProgress 90 9 ;;
     (* Step 12: final score *)
     updateProgress onProgress 10 ;;
     let facts :=
       {| f_url := formattedUrl; f_doc := doc; f_headers := headers response;
          f_domainAge := domainAge; f_performance := performance;
          f_accessibility := accessibility |} in
     updateProgress onProgress 10 ;;
     ret (report facts))
    (fun message => throw ("Analysis failed: " ++ message)).

(* ================================================================== *)
(** ** server.js: the handler of [GET /api/analyze] *)

Inductive HttpResponse : Type :=
| json_response (code : Z) (error : string)
| event_stream (events : list Event).

(** The callback the handler passes to [analyzeWebsite]. *)
Definition progress_callback : Callback :=
  fun progress step => sendSSE (progress_event progress step).

(** The body of the handler once the event-stream headers are set. *)
Definition stream_analysis (env : Env) (url : string) : M unit :=
  try_catch
    (sendSSE (progress_event (JS.RInt 0) 0) ;;
     result <- analyzeWebsite env url (Some progress_callback) ;;
     sendSSE (complete_event result))
    (fun message => sendSSE (error_event message)).

(** The world after the handler has run on a request with a [url]. *)
Definition run_analysis (env : Env) (url : string) : World :=
  snd (stream_analysis env url empty_world).

(** The handler: [400] when the query has no (or an empty) [url],
    otherwise the stream written until [res.end()]. *)
Definition handle_analyze (env : Env) (url : option string) : HttpResponse :=
  match url with
  | None => json_response 400 "URL is required"
  | Some u =>
      if JS.truthy u then event_stream (sse (run_analysis env u))
      else json_response 400 "URL is required"
  end.

(* ================================================================== *)
(** ** Vocabulary of the specification *)

(** The points a satisfied condition contributes. *)
Definition points (condition : bool) (p : Z) : Z := if condition then p else 0.

(** The two tiers of the content score. *)
Definition word_points (wordCount : Z) : Z :=
  if wordCount >=? 1000 then 50
  else if wordCount >=? 500 then 30
  else if wordCount >=? 300 then 20
  else 10.

Definition paragraph_points (avgParagraphLength : JS.number) : Z :=
  if JS.ge avgParagraphLength (JS.of_Z 100) then 50
  else if JS.ge avgParagraphLength (JS.of_Z 50) then 30
  else if JS.ge avgParagraphLength (JS.of_Z 30) then 20
  else 10.

(** An attribute that is present with a non-empty value. *)
Definition nonempty_attr (a : option string) : Prop :=
  exists s, a = Some s /\ s <> "".

(** The host of an absolute URL, in the words of the specification: what
    follows the scheme separator, up to the first of [/ ? # :]. *)
Fixpoint after_scheme (s : string) : option string :=
  match s with
  | EmptyString => None
  | String c rest =>
      if String.prefix "://" s then Some (substring 3 (String.length s - 3) s)
      else after_scheme rest
  end.

Definition ends_host (c : ascii) : bool :=
  (Ascii.eqb c "/" || Ascii.eqb c "?" || Ascii.eqb c "#" || Ascii.eqb c ":")%char.

Fixpoint until_delimiter (s : string) : string :=
  match s with
  | EmptyString => EmptyString
  | String c rest => if ends_host c then EmptyString else String c (until_delimiter rest)
  end.

Definition url_host (url : string) : string :=
  match after_scheme url with
  | Some rest => until_delimiter rest
  | None => until_delimiter url
  end.

(** Classification of the events of a stream. *)
Definition is_error (e : Event) : bool :=
  match e with
  | error_event _ => true
  | _ => false
  end.

Definition is_complete (e : Event) : bool :=
  match e with
  | complete_event _ => true
  | _ => false
  end.

Definition count_events (p : Event -> bool) (stream : list Event) : nat :=
  List.length (filter p stream).

(** The exact weighted sum, in hundredths, of nine integer sub-scores. *)
Definition weighted_hundredths (seo rp sec age cnt img mt perf acc : Z) : Z :=
  25 * seo + 15 * rp + 15 * sec + 10 * age + 15 * cnt + 10 * img + 10 * mt
  + 10 * perf + 10 * acc.

(** Rounding half up of a number of hundredths. *)
Definition round_hundredths (h : Z) : Z := (h + 50) / 100.

(* ================================================================== *)
(** ** Closed forms of a run *)

(** The progress events written before the page is fetched: the
    handler's own, then steps 0 and 1. *)
Definition progress_before_fetch : list Event :=
  [ progress_event (JS.RInt 0) 0;
    progress_event (JS.RInt 0) 0;
    progress_event (JS.RInt 10) 1 ].

(** The progress events of the steps after the fetch. *)
Definition progress_after_fetch : list Event :=
  [ progress_event (JS.RInt 20) 2;
    progress_event (JS.RInt 30) 3;
    progress_event (JS.RInt 40) 4;
    progress_event (JS.RInt 50) 5;
    progress_event (JS.RInt 60) 6;
    progress_event (JS.RInt 70) 7;
    progress_event (JS.RInt 80) 8;
    progress_event (JS.RInt 80) 8;
    progress_event (JS.RInt 80) 8;
    progress_event (JS.RInt 90) 9;
    progress_event (JS.RInt 90) 9;
    progress_event (JS.RInt 100) 10;
    progress_event (JS.RInt 100) 10 ].

(** The value of [domainAge] after step 6, by outcome of the lookup. *)
Definition domain_age_after (now : Z) (o : Outcome WhoisData) : JS.rounded :=
  match o with
  | Rejected _ => JS.RInt 0
  | Resolved WhoisNullish => JS.RInt 0
  | Resolved (WhoisRecord c) => months_between (JS.of_Z now) (new_Date c)
  end.

(** The facts gathered by a run whose fetch resolved with [response]. *)
Definition facts_of (env : Env) (url : string) (response : Response) : Facts :=
  {| f_url := formatUrl url;
     f_doc := data response;
     f_headers := headers response;
     f_domainAge := domain_age_after (clock env) (whois_lookup env (formatUrl url));
     f_performance := analyzePerformance (data response);
     f_accessibility := analyzeAccessibility (data response) |}.

(** The reduction over the nine entries of [scores], written out: the
    products are added to the total from left to right, starting at 0. *)
Definition weighted_total (seo rp sec age cnt img mt perf acc : Z) : JS.number :=
  JS.add (JS.add (JS.add (JS.add (JS.add (JS.add (JS.add (JS.add (JS.add (JS.of_Z 0)
    (JS.mul (JS.of_Z seo) (JS.lit100 25)))
    (JS.mul (JS.of_Z rp) (JS.lit100 15)))
    (JS.mul (JS.of_Z sec) (JS.lit100 15)))
    (JS.mul (JS.of_Z age) (JS.lit100 10)))
    (JS.mul (JS.of_Z cnt) (JS.lit100 15)))
    (JS.mul (JS.of_Z img) (JS.lit100 10)))
    (JS.mul (JS.of_Z mt) (JS.lit100 10)))
    (JS.mul (JS.of_Z perf) (JS.lit100 10)))
    (JS.mul (JS.of_Z acc) (JS.lit100 10)).

(** The seven sub-scores that are computed from the page alone. *)
Definition seo_score (f : Facts) : Z :=
  calculateSEOScore (sel_title_text (f_doc f)) (sel_description (f_doc f))
    (Z.of_nat (sel_h1 (f_doc f))) (Z.of_nat (sel_h2 (f_doc f))) (Z.of_nat (sel_h3 (f_doc f)))
    (internalLinks (f_url f) (f_doc f)) (externalLinks (f_url f) (f_doc f)).

Definition required_pages_score (f : Facts) : Z :=
  calculateRequiredPagesScore
    (hasPrivacyPolicy (f_doc f)) (hasContactPage (f_doc f))
    (hasAboutPage (f_doc f)) (hasTermsPage (f_doc f)).

Definition security_score (f : Facts) : Z :=
  calculateSecurityScore (isHttps f) (hasHsts f) (hasXssProtection f) (hasCsp f).

Definition domain_age_score (f : Facts) : Z := calculateDomainAgeScore (f_domainAge f).

Definition content_score (f : Facts) : Z :=
  calculateContentScore (wordCount (f_doc f)) (avgParagraphLength (f_doc f)).

Definition image_score (f : Facts) : Z :=
  calculateImageScore (JS.length (sel_img (f_doc f)))
    (imagesWithAlt (f_doc f)) (imagesWithTitle (f_doc f)).

Definition meta_score (f : Facts) : Z :=
  calculateMetaScore
    (hasViewport (f_doc f)) (hasRobots (f_doc f)) (hasKeywords (f_doc f))
    (hasAuthor (f_doc f)) (hasSocialMeta (f_doc f)).

(* ================================================================== *)
(** ** Sample pages and environments *)

Fixpoint words (n : nat) : string :=
  match n with
  | O => ""
  | S O => "w"
  | S m => "w " ++ words m
  end.

Definition no_headers : Headers :=
  {| strict_transport_security := None; x_xss_protection := None;
     content_security_policy := None |}.

Definition all_headers : Headers :=
  {| strict_transport_security := Some "max-age=31536000";
     x_xss_protection := Some "1; mode=block";
     content_security_policy := Some "default-src 'self'" |}.

(** A page with no element the program looks for. *)
Definition empty_doc : Document :=
  {| sel_title_text := ""; sel_description := None;
     sel_h1 := 0; sel_h2 := 0; sel_h3 := 0;
     sel_img := []; sel_a := []; sel_p := [];
     sel_viewport := 0; sel_robots := 0; sel_keywords := 0; sel_author := 0;
     sel_og := 0; sel_script := 0; sel_stylesheet := 0; sel_form := [] |}.

(** A page on which every criterion is satisfied. *)
Definition full_doc : Document :=
  {| sel_title_text := "Shop"; sel_description := Some "A shop";
     sel_h1 := 1; sel_h2 := 1; sel_h3 := 1;
     sel_img := [ {| img_alt := Some "logo"; img_title := Some "Logo" |} ];
     sel_a := [ {| a_href := Some "/privacy"; a_text := "Privacy" |};
                {| a_href := Some "/contact"; a_text := "Contact" |};
                {| a_href := Some "/about"; a_text := "About" |};
                {| a_href := Some "/terms"; a_text := "Terms" |};
                {| a_href := Some "https://partner.org/"; a_text := "Partner" |} ];
     sel_p := [ words 1000 ];
     sel_viewport := 1; sel_robots := 1; sel_keywords := 1; sel_author := 1;
     sel_og := 1; sel_script := 2; sel_stylesheet := 1;
     sel_form := [ {| form_labels := 1 |} ] |}.

(** The page of the SEO example: title "Shop", no description, one H1,
    no H2, two H3, three internal and two external links. *)
Definition shop_doc : Document :=
  {| sel_title_text := "Shop"; sel_description := None;
     sel_h1 := 1; sel_h2 := 0; sel_h3 := 2;
     sel_img := [];
     sel_a := [ {| a_href := Some "/"; a_text := "Home" |};
                {| a_href := Some "/cart"; a_text := "Cart" |};
                {| a_href := Some "http://shop.example/sale"; a_text := "Sale" |};
                {| a_href := Some "https://pay.example/"; a_text := "Pay" |};
                {| a_href := Some "mailto:owner@shop.example"; a_text := "Mail" |} ];
     sel_p := [];
     sel_viewport := 0; sel_robots := 0; sel_keywords := 0; sel_author := 0;
     sel_og := 0; sel_script := 0; sel_stylesheet := 0; sel_form := [] |}.

(** A page whose only link has no [href]. *)
Definition bare_anchor_doc : Document :=
  {| sel_title_text := ""; sel_description := None;
     sel_h1 := 0; sel_h2 := 0; sel_h3 := 0;
     sel_img := []; sel_a := [ {| a_href := None; a_text := "top" |} ]; sel_p := [];
     sel_viewport := 0; sel_robots := 0; sel_keywords := 0; sel_author := 0;
     sel_og := 0; sel_script := 0; sel_stylesheet := 0; sel_form := [] |}.

(** A page whose only image has empty [alt] and [title] attributes. *)
Definition empty_alt_doc : Document :=
  {| sel_title_text := ""; sel_description := None;
     sel_h1 := 0; sel_h2 := 0; sel_h3 := 0;
     sel_img := [ {| img_alt := Some ""; img_title := Some "" |} ];
     sel_a := []; sel_p := [];
     sel_viewport := 0; sel_robots := 0; sel_keywords := 0; sel_author := 0;
     sel_og := 0; sel_script := 0; sel_stylesheet := 0; sel_form := [] |}.

(** 1 January 2024 and 1 January 2021, in milliseconds. *)
Definition jan_2024 : Z := 1704067200000.
Definition jan_2021 : Z := 1609459200000.

Definition serve (doc : Document) (h : Headers) (whois : Outcome WhoisData) : Env :=
  {| axios_get := fun _ => Resolved {| data := doc; headers := h |};
     whois_lookup := fun _ => whois;
     clock := jan_2024 |}.

Definition offline : Env :=
  {| axios_get := fun _ => Rejected "timeout of 10000ms exceeded";
     whois_lookup := fun _ => Rejected "connect ETIMEDOUT";
     clock := jan_2024 |}.

Definition full_env : Env :=
  serve full_doc all_headers (Resolved (WhoisRecord (FieldDate jan_2021))).

Definition full_facts : Facts :=
  {| f_url := "https://shop.example"; f_doc := full_doc; f_headers := all_headers;
     f_domainAge := JS.RInt 37;
     f_performance := analyzePerformance full_doc;
     f_accessibility := analyzeAccessibility full_doc |}.

(** The lookup answers, but without a [creationDate]. *)
Definition undated_env : Env :=
  serve empty_doc no_headers (Resolved (WhoisRecord FieldMissing)).

(* ================================================================== *)
(** ** Reachable partial sums of the weighted total

    Every scorer returns a multiple of 5 between 0 and 100.  Folding the
    nine products into the total therefore visits finitely many binary64
    values; they are enumerated here together with the exact sum (in
    hundredths) they stand for. *)

Definition sub_score_values : list Z :=
  [0; 5; 10; 15; 20; 25; 30; 35; 40; 45; 50; 55; 60; 65; 70; 75; 80; 85; 90; 95; 100].

Definition partial : Type := (JS.number * Z)%type.

Definition number_eqb (x y : JS.number) : bool :=
  match x, y with
  | S754_zero a, S754_zero b => Bool.eqb a b
  | S754_infinity a, S754_infinity b => Bool.eqb a b
  | S754_nan, S754_nan => true
  | S754_finite a m e, S754_finite b n f => Bool.eqb a b && Pos.eqb m n && Z.eqb e f
  | _, _ => false
  end.

Definition partial_eqb (p q : partial) : bool :=
  Z.eqb (snd p) (snd q) && number_eqb (fst p) (fst q).

Fixpoint dedup (l acc : list partial) : list partial :=
  match l with
  | [] => acc
  | p :: rest => dedup rest (if existsb (partial_eqb p) acc then acc else p :: acc)
  end.

(** One step of the reduction: [total + score * weight], with the exact
    sum advanced by [k * score] hundredths. *)
Definition advance (w : JS.number) (k : Z) (p : partial) (s : Z) : partial :=
  (JS.add (fst p) (JS.mul (JS.of_Z s) w), snd p + k * s).

Definition extend (w : JS.number) (k : Z) (R : list partial) : list partial :=
  dedup (flat_map (fun p => map (advance w k p) sub_score_values) R) [].

Definition reachable : list partial :=
  extend (JS.lit100 10) 10
   (extend (JS.lit100 10) 10
     (extend (JS.lit100 10) 10
       (extend (JS.lit100 10) 10
         (extend (JS.lit100 15) 15
           (extend (JS.lit100 10) 10
             (extend (JS.lit100 15) 15
               (extend (JS.lit100 15) 15
                 (extend (JS.lit100 25) 25 [(JS.of_Z 0, 0)])))))))).

(** The binary64 total rounds to the rounding of the exact sum. *)
Definition rounds_exactly (p : partial) : bool :=
  match JS.Math_round (fst p) with
  | JS.RInt z => z =? round_hundredths (snd p)
  | _ => false
  end.

(* ================================================================== *)
(** ** Vocabulary for the remaining behaviour of the two files *)

(** A string has a white-space code unit; has one that is not. *)
Fixpoint has_ws (s : string) : bool :=
  match s with
  | EmptyString => false
  | String c rest => JS.isWhiteSpace c || has_ws rest
  end.

Fixpoint has_non_ws (s : string) : bool :=
  match s with
  | EmptyString => false
  | String c rest => negb (JS.isWhiteSpace c) || has_non_ws rest
  end.

(** A string without its white-space code units. *)
Fixpoint remove_ws (s : string) : string :=
  match s with
  | EmptyString => EmptyString
  | String c rest => if JS.isWhiteSpace c then remove_ws rest else String c (remove_ws rest)
  end.

(** The number of maximal runs of white space in a string; [prev_ws]
    tells whether the code unit before the string was white space. *)
Fixpoint ws_runs_after (prev_ws : bool) (s : string) : nat :=
  match s with
  | EmptyString => O
  | String c rest =>
      if JS.isWhiteSpace c
      then (if prev_ws then O else 1%nat) + ws_runs_after true rest
      else ws_runs_after false rest
  end.

Definition ws_runs (s : string) : nat := ws_runs_after false s.

(** A document with another list of links. *)
Definition with_links (doc : Document) (links : list Anchor) : Document :=
  {| sel_title_text := sel_title_text doc; sel_description := sel_description doc;
     sel_h1 := sel_h1 doc; sel_h2 := sel_h2 doc; sel_h3 := sel_h3 doc;
     sel_img := sel_img doc; sel_a := links; sel_p := sel_p doc;
     sel_viewport := sel_viewport doc; sel_robots := sel_robots doc;
     sel_keywords := sel_keywords doc; sel_author := sel_author doc;
     sel_og := sel_og doc; sel_script := sel_script doc;
     sel_stylesheet := sel_stylesheet doc; sel_form := sel_form doc |}.

(** A link with its [href] in lower case. *)
Definition lower_href (el : Anchor) : Anchor :=
  {| a_href := option_map JS.toLowerCase (a_href el); a_text := a_text el |}.

(** Progress events, terminal events, and the order of a stream. *)
Definition is_progress (e : Event) : bool :=
  match e with
  | progress_event _ _ => true
  | _ => false
  end.

Definition is_terminal (e : Event) : bool := is_complete e || is_error e.

(** A progress event reports a step between 0 and 10 and ten times that
    step as percentage. *)
Definition progress_well_formed (e : Event) : bool :=
  match e with
  | progress_event (JS.RInt p) step => (0 <=? step) && (step <=? 10) && (p =? 10 * step)
  | _ => false
  end.

Definition step_of (e : Event) : Z :=
  match e with
  | progress_event _ step => step
  | _ => 10
  end.

Fixpoint steps_never_decrease (stream : list Event) : bool :=
  match stream with
  | [] => true
  | e :: rest =>
      match rest with
      | [] => true
      | e' :: _ => (step_of e <=? step_of e') && steps_never_decrease rest
      end
  end.

(** More sample pages. *)

(** Two one-word paragraphs. *)
Definition two_words_doc : Document :=
  {| sel_title_text := ""; sel_description := None;
     sel_h1 := 0; sel_h2 := 0; sel_h3 := 0;
     sel_img := []; sel_a := []; sel_p := [ "Hello"; "world" ];
     sel_viewport := 0; sel_robots := 0; sel_keywords := 0; sel_author := 0;
     sel_og := 0; sel_script := 0; sel_stylesheet := 0; sel_form := [] |}.

(** A page that satisfies no criterion and loads 30 scripts and 6
    style sheets. *)
Definition heavy_doc : Document :=
  {| sel_title_text := ""; sel_description := None;
     sel_h1 := 0; sel_h2 := 0; sel_h3 := 0;
     sel_img := []; sel_a := []; sel_p := [ "w" ];
     sel_viewport := 0; sel_robots := 0; sel_keywords := 0; sel_author := 0;
     sel_og := 0; sel_script := 30; sel_stylesheet := 6; sel_form := [] |}.

Definition heavy_env : Env := serve heavy_doc no_headers (Rejected "connect ETIMEDOUT").


(* ================================================================== *)
(** ** server.js: the text [sendSSE] writes for an event

    [sendSSE] writes [`data: ${JSON.stringify(data)}\n\n`].
    [JSON.stringify] is rendered for the values an event can hold:
    strings (quoted, with the escapes of the language), integral Numbers
    (decimal digits), [NaN] and the infinities ([null]), booleans, and
    objects, whose properties with an [undefined] value are left out. *)

Definition LF : ascii := ascii_of_nat 10.
Definition CR : ascii := ascii_of_nat 13.
Definition quotation_mark : ascii := ascii_of_nat 34.

Definition hex_digit (n : nat) : ascii :=
  nth n [ "0"; "1"; "2"; "3"; "4"; "5"; "6"; "7"; "8"; "9";
          "a"; "b"; "c"; "d"; "e"; "f" ]%char "0"%char.

(** The escape of one code unit inside a JSON string. *)
Definition json_escape (c : ascii) : string :=
  let n := nat_of_ascii c in
  if (n =? 8)%nat then "\b"
  else if (n =? 9)%nat then "\t"
  else if (n =? 10)%nat then "\n"
  else if (n =? 12)%nat then "\f"
  else if (n =? 13)%nat then "\r"
  else if (n =? 34)%nat then String "\" (String quotation_mark "")
  else if (n =? 92)%nat then "\\"
  else if (n <? 32)%nat
       then "\u00" ++ String (hex_digit (n / 16)) (String (hex_digit (n mod 16)) "")
  else String c "".

Fixpoint json_chars (s : string) : string :=
  match s with
  | EmptyString => EmptyString
  | String c rest => json_escape c ++ json_chars rest
  end.

Definition json_string (s : string) : string :=
  String quotation_mark (json_chars s ++ String quotation_mark "").

Definition json_number (x : JS.rounded) : string :=
  match x with
  | JS.RInt z => JS.Z_toString z
  | _ => "null"
  end.

(** [None] stands for [undefined], which [JSON.stringify] leaves out. *)
Definition json_value (v : Value) : option string :=
  match v with
  | VUndefined => None
  | VBoolean true => Some "true"
  | VBoolean false => Some "false"
  | VNumber n => Some (json_number n)
  | VString s => Some (json_string s)
  end.

Definition status_text (s : Status) : string :=
  match s with
  | passed => "passed"
  | warning => "warning"
  | failed => "failed"
  end.

(** The properties of an object, in order; [first] tells whether no
    property has been written yet. *)
Fixpoint json_members (members : list (string * option string)) (first : bool) : string :=
  match members with
  | [] => ""
  | (_, None) :: rest => json_members rest first
  | (key, Some v) :: rest =>
      (if first then "" else ",") ++ json_string key ++ ":" ++ v ++ json_members rest false
  end.

Definition json_object (members : list (string * option string)) : string :=
  "{" ++ json_members members true ++ "}".

Definition json_criterion (c : CriterionResult) : option string :=
  Some (json_object [ ("value", json_value (value c));
                      ("status", Some (json_string (status_text (status c)))) ]).

Definition json_details (d : Details) : string :=
  json_object
    [ ("seo", Some (json_object
         [ ("title", json_criterion (seo_title (seo d)));
           ("metaDescription", json_criterion (seo_metaDescription (seo d)));
           ("h1Count", json_criterion (seo_h1Count (seo d)));
           ("h2Count", json_criterion (seo_h2Count (seo d)));
           ("h3Count", json_criterion (seo_h3Count (seo d)));
           ("internalLinks", json_criterion (seo_internalLinks (seo d)));
           ("externalLinks", json_criterion (seo_externalLinks (seo d))) ]));
      ("requiredPages", Some (json_object
         [ ("privacyPolicy", json_criterion (rp_privacyPolicy (requiredPages d)));
           ("contactPage", json_criterion (rp_contactPage (requiredPages d)));
           ("aboutPage", json_criterion (rp_aboutPage (requiredPages d)));
           ("termsPage", json_criterion (rp_termsPage (requiredPages d))) ]));
      ("security", Some (json_object
         [ ("https", json_criterion (sec_https (security d)));
           ("hsts", json_criterion (sec_hsts (security d)));
           ("xssProtection", json_criterion (sec_xssProtection (security d)));
           ("csp", json_criterion (sec_csp (security d))) ]));
      ("domain", Some (json_object
         [ ("age", json_criterion (dom_age (domain d))) ]));
      ("content", Some (json_object
         [ ("wordCount", json_criterion (cnt_wordCount (content d)));
           ("avgParagraphLength", json_criterion (cnt_avgParagraphLength (content d))) ]));
      ("images", Some (json_object
         [ ("total", json_criterion (img_total (images d)));
           ("withAlt", json_criterion (img_withAlt (images d)));
           ("withTitle", json_criterion (img_withTitle (images d))) ]));
      ("meta", Some (json_object
         [ ("viewport", json_criterion (meta_viewport (meta d)));
           ("robots", json_criterion (meta_robots (meta d)));
           ("keywords", json_criterion (meta_keywords (meta d)));
           ("author", json_criterion (meta_author (meta d)));
           ("socialMeta", json_criterion (meta_socialMeta (meta d))) ]));
      ("performance", Some (json_object
         [ ("loadTime", json_criterion (perf_loadTime (performance d)));
           ("scripts", json_criterion (perf_scripts (performance d)));
           ("stylesheets", json_criterion (perf_stylesheets (performance d))) ]));
      ("accessibility", Some (json_object
         [ ("images", json_criterion (acc_images (accessibility d)));
           ("links", json_criterion (acc_links (accessibility d)));
           ("forms", json_criterion (acc_forms (accessibility d))) ])) ].

Definition json_report (r : Report) : string :=
  json_object [ ("score", Some (json_number (score r)));
                ("details", Some (json_details (details r))) ].

(** [JSON.stringify] of the object passed to [sendSSE]. *)
Definition json_event (e : Event) : string :=
  match e with
  | progress_event progress step =>
      json_object [ ("type", Some (json_string "progress"));
                    ("progress", Some (json_number progress));
                    ("step", Some (JS.Z_toString step)) ]
  | complete_event result =>
      json_object [ ("type", Some (json_string "complete"));
                    ("result", Some (json_report result)) ]
  | error_event message =>
      json_object [ ("type", Some (json_string "error"));
                    ("message", Some (json_string message)) ]
  end.

(** The text written to the response for one event. *)
Definition sse_frame (e : Event) : string :=
  "data: " ++ json_event e ++ String LF (String LF "").

(** The number of line breaks (LF or CR) of a text. *)
Fixpoint line_breaks (s : string) : nat :=
  match s with
  | EmptyString => O
  | String c rest =>
      ((if Ascii.eqb c LF || Ascii.eqb c CR then 1 else 0) + line_breaks rest)%nat
  end.

(** A property of an object whose rendered value has no line break. *)
Definition one_line_member (m : string * option string) : Prop :=
  match snd m with
  | Some v => line_breaks v = O
  | None => True
  end.

(** A page whose title and description hold line breaks, quotes and a
    backslash. *)
Definition hostile_doc : Document :=
  {| sel_title_text := String LF ("data: {" ++ String quotation_mark ("type\" ++ String CR ""));
     sel_description := Some (String LF (String LF "x"));
     sel_h1 := 0; sel_h2 := 0; sel_h3 := 0;
     sel_img := []; sel_a := []; sel_p := [];
     sel_viewport := 0; sel_robots := 0; sel_keywords := 0; sel_author := 0;
     sel_og := 0; sel_script := 0; sel_stylesheet := 0; sel_form := [] |}.

(* ================================================================== *)
(** ** Proof automation *)

(** Case analysis on every condition of a scorer. *)
Ltac split_conditions :=
  repeat match goal with
         | |- context [if ?b then _ else _] => destruct b
         end.

(** Membership of a closed integer in a closed list. *)
Ltac member :=
  unfold sub_score_values; cbv zeta; cbn [In];
  repeat first [left; reflexivity | right].

(* ================================================================== *)
(** * Properties *)

(** ** The JavaScript primitives behave as in the language *)

Example split_ws_examples :
  JS.split_ws "" = [""]
  /\ JS.split_ws "two words" = ["two"; "words"]
  /\ JS.split_ws " a  b " = [""; "a"; "b"; ""].
Proof. repeat split. Qed.

Example number_examples :
  JS.div (JS.of_Z 1) (JS.of_Z 0) = JS.Infinity
  /\ JS.Math_round (JS.div (JS.of_Z 5) (JS.of_Z 2)) = JS.RInt 3
  /\ JS.Math_round (JS.div (JS.of_Z (-5)) (JS.of_Z 2)) = JS.RInt (-2)
  /\ JS.Math_round (JS.mul (JS.div (JS.of_Z 23) (JS.of_Z 40)) (JS.of_Z 100)) = JS.RInt 57
  /\ JS.toString (JS.Math_round (JS.sub (JS.of_Z 7) JS.NaN)) = "NaN"
  /\ JS.trim "  a b  " = "a b".
Proof. repeat split; vm_compute; reflexivity. Qed.

(** The literal [0.15] is the double [0x3FC3333333333333]. *)
Example literal_0_15 : JS.lit100 15 = S754_finite false 5404319552844595 (-55).
Proof. vm_compute. reflexivity. Qed.

Lemma truthy_nonempty (s : string) : JS.truthy s = true <-> s <> "".
Proof. destruct s; simpl; split; congruence. Qed.

Lemma truthy_attr_nonempty (a : option string) :
  JS.truthy_attr a = true <-> nonempty_attr a.
Proof.
  unfold nonempty_attr. destruct a as [s|]; simpl.
  - rewrite truthy_nonempty. split.
    + intros H. exists s. auto.
    + intros [t [E H]]. congruence.
  - split; [congruence | intros [t [E _]]; discriminate].
Qed.

Lemma prefix_app (p s : string) :
  String.prefix p s = true <-> exists rest, s = (p ++ rest)%string.
Proof.
  revert s. induction p as [|c p IH]; intros s; simpl.
  - split; [intros _; exists s; reflexivity | intros _; destruct s; reflexivity].
  - destruct s as [|d s]; simpl.
    + split; [congruence | intros [rest E]; discriminate].
    + destruct (Ascii.ascii_dec c d) as [->|N].
      * rewrite IH. split; intros [rest E]; exists rest; congruence.
      * split; [congruence | intros [rest E]; congruence].
Qed.

(** [includes] is the substring test. *)
Lemma includes_substring (s needle : string) :
  JS.includes s needle = true
  <-> exists before after, s = (before ++ needle ++ after)%string.
Proof.
  induction s as [|c s IH]; cbn [JS.includes].
  - rewrite orb_false_r, prefix_app. split.
    + intros [rest E]. exists "", rest. exact E.
    + intros [before [after E]]. destruct before; simpl in E.
      * exists after. exact E.
      * discriminate.
  - rewrite orb_true_iff, prefix_app, IH. split.
    + intros [[rest E] | [before [after E]]].
      * exists "", rest. exact E.
      * exists (String c before), after. simpl. congruence.
    + intros [before [after E]]. destruct before as [|d before]; simpl in E.
      * left. exists after. exact E.
      * right. exists before, after. congruence.
Qed.

(* ================================================================== *)
(** ** The scorers *)

(** C7: the SEO sub-score is the sum of the contributions title +20,
    meta description +20, H1 +15, H2 +10, H3 +5, internal links +15 and
    external links +15 (a title or description counts when its text is
    not empty); for title "Shop", no description, one H1, no H2, two H3,
    three internal and two external links it is 70, both for the scorer
    called on these values and for the page [shop_doc] from which the
    pipeline extracts them. *)
Theorem seo_score_is_sum_of_contributions :
  (forall title metaDescription h1Count h2Count h3Count internal external,
      calculateSEOScore title metaDescription h1Count h2Count h3Count internal external
      = points (JS.truthy title) 20 + points (JS.truthy_attr metaDescription) 20
        + points (h1Count >? 0) 15 + points (h2Count >? 0) 10 + points (h3Count >? 0) 5
        + points (internal >? 0) 15 + points (external >? 0) 15)
  /\ calculateSEOScore "Shop" None 1 0 2 3 2 = 70
  /\ internalLinks (formatUrl "shop.example") shop_doc = 3
  /\ externalLinks (formatUrl "shop.example") shop_doc = 2
  /\ calculateSEOScore (sel_title_text shop_doc) (sel_description shop_doc)
       (Z.of_nat (sel_h1 shop_doc)) (Z.of_nat (sel_h2 shop_doc)) (Z.of_nat (sel_h3 shop_doc))
       (internalLinks (formatUrl "shop.example") shop_doc)
       (externalLinks (formatUrl "shop.example") shop_doc) = 70.
Proof.
  split; [| repeat split].
  intros. unfold calculateSEOScore, points. split_conditions; reflexivity.
Qed.

Lemma round_of_small_integer (z : Z) :
  0 <= z <= 100 -> JS.Math_round (JS.of_Z z) = JS.RInt z.
Proof.
  intros H.
  assert (forallb (fun y => match JS.Math_round (JS.of_Z y) with
                            | JS.RInt r => r =? y
                            | _ => false
                            end) (map Z.of_nat (seq 0 101)) = true) as Hall
      by (vm_compute; reflexivity).
  rewrite forallb_forall in Hall.
  specialize (Hall z). 
  assert (In z (map Z.of_nat (seq 0 101))) as Hin.
  { apply in_map_iff. exists (Z.to_nat z). split; [lia |].
    apply in_seq. lia. }
  specialize (Hall Hin).
  destruct (JS.Math_round (JS.of_Z z)); try discriminate.
  apply Z.eqb_eq in Hall. congruence.
Qed.

Lemma sub_score_values_bounds (z : Z) : In z sub_score_values -> 0 <= z <= 100.
Proof. unfold sub_score_values. simpl. intros H. repeat destruct H as [H | H]; lia. Qed.

Lemma performance_score_value (p : Performance) :
  exists z, calculatePerformanceScore p = JS.RInt z /\ In z sub_score_values.
Proof.
  unfold calculatePerformanceScore.
  destruct (status (perf_scripts p)), (status (perf_stylesheets p)),
    (status (perf_loadTime p)); cbv beta iota zeta delta [add_by_status];
    (eexists; split; [apply round_of_small_integer; lia | member]).
Qed.

Lemma accessibility_score_value (a : Accessibility) :
  exists z, calculateAccessibilityScore a = JS.RInt z /\ In z sub_score_values.
Proof.
  unfold calculateAccessibilityScore.
  destruct (status (acc_images a)), (status (acc_links a)),
    (status (acc_forms a)); cbv beta iota zeta delta [add_by_status];
    (eexists; split; [apply round_of_small_integer; lia | member]).
Qed.

(** C8: whatever their arguments (any counts, any domain age including
    [NaN], any average paragraph length including [NaN] and the
    infinities, any statuses), the nine scorers return an integer
    between 0 and 100. *)
Theorem sub_scores_between_0_and_100 :
  forall (title : string) (metaDescription : option string)
         (h1Count h2Count h3Count internal external : Z)
         (hasPrivacyPolicy hasContactPage hasAboutPage hasTermsPage : bool)
         (https hsts xss csp : bool)
         (age : JS.rounded)
         (words_ : Z) (avg : JS.number)
         (total withAlt withTitle : Z)
         (hasViewport hasRobots hasKeywords hasAuthor hasSocialMeta : bool)
         (perf : Performance) (acc : Accessibility),
    0 <= calculateSEOScore title metaDescription h1Count h2Count h3Count internal external <= 100
    /\ 0 <= calculateRequiredPagesScore hasPrivacyPolicy hasContactPage hasAboutPage hasTermsPage <= 100
    /\ 0 <= calculateSecurityScore https hsts xss csp <= 100
    /\ 0 <= calculateDomainAgeScore age <= 100
    /\ 0 <= calculateContentScore words_ avg <= 100
    /\ 0 <= calculateImageScore total withAlt withTitle <= 100
    /\ 0 <= calculateMetaScore hasViewport hasRobots hasKeywords hasAuthor hasSocialMeta <= 100
    /\ (exists z, calculatePerformanceScore perf = JS.RInt z /\ 0 <= z <= 100)
    /\ (exists z, calculateAccessibilityScore acc = JS.RInt z /\ 0 <= z <= 100).
Proof.
  intros.
  repeat match goal with |- _ /\ _ => split end;
    try (unfold calculateSEOScore, calculateRequiredPagesScore, calculateSecurityScore,
           calculateDomainAgeScore, calculateContentScore, calculateImageScore,
           calculateMetaScore;
         split_conditions; cbv zeta; lia).
  - destruct (performance_score_value perf) as [z [E B]].
    exists z. split; [exact E | apply sub_score_values_bounds, B].
  - destruct (accessibility_score_value acc) as [z [E B]].
    exists z. split; [exact E | apply sub_score_values_bounds, B].
Qed.

(* ================================================================== *)
(** ** Signals *)

(** C9: an image counts as having alt text (a title) exactly when the
    attribute is present with a non-empty value, so an image with
    [alt=""] adds nothing to the count of images with alt; that count
    is the one passed to the image scorer and the numerator of the
    alt-text percentage of the accessibility analysis.  On a page whose
    only image has [alt=""] and [title=""] both counts are 0, the image
    score is the 40 points for having an image, and the accessibility
    entry reads 0% (0/1). *)
Theorem empty_alt_is_not_alt_text :
  (forall img, has_alt img = true <-> nonempty_attr (img_alt img))
  /\ (forall img, has_title img = true <-> nonempty_attr (img_title img))
  /\ (forall t imgs,
        JS.length (filter has_alt ({| img_alt := Some ""; img_title := t |} :: imgs))
        = JS.length (filter has_alt imgs))
  /\ (forall a imgs,
        JS.length (filter has_title ({| img_alt := a; img_title := Some "" |} :: imgs))
        = JS.length (filter has_title imgs))
  /\ (forall doc,
        imagesWithAlt doc = JS.length (filter has_alt (sel_img doc))
        /\ imagesWithTitle doc = JS.length (filter has_title (sel_img doc))
        /\ acc_images (analyzeAccessibility doc)
           = {| value := VString (percentage_text
                                    (percentage (imagesWithAlt doc) (JS.length (sel_img doc)))
                                    "% of images have alt text"
                                    (imagesWithAlt doc) (JS.length (sel_img doc)));
                status := percentage_status
                            (percentage (imagesWithAlt doc) (JS.length (sel_img doc))) |})
  /\ imagesWithAlt empty_alt_doc = 0
  /\ imagesWithTitle empty_alt_doc = 0
  /\ calculateImageScore (JS.length (sel_img empty_alt_doc))
       (imagesWithAlt empty_alt_doc) (imagesWithTitle empty_alt_doc) = 40
  /\ acc_images (analyzeAccessibility empty_alt_doc)
     = {| value := VString "0% of images have alt text (0/1)"; status := failed |}.
Proof.
  split; [intros img; apply truthy_attr_nonempty |].
  split; [intros img; apply truthy_attr_nonempty |].
  split; [intros t imgs; reflexivity |].
  split; [intros a imgs; reflexivity |].
  split; [intros doc; repeat split |].
  repeat split; vm_compute; reflexivity.
Qed.

Lemma paragraphs_text_nil (doc : Document) :
  sel_p doc = [] -> paragraphs_text doc = "".
Proof. unfold paragraphs_text. intros ->. reflexivity. Qed.

Lemma wordCount_nil (doc : Document) : sel_p doc = [] -> wordCount doc = 1.
Proof. intros H. unfold wordCount. rewrite (paragraphs_text_nil doc H). reflexivity. Qed.

Lemma content_score_tiers (wordCount_ : Z) (avg : JS.number) :
  calculateContentScore wordCount_ avg = word_points wordCount_ + paragraph_points avg.
Proof.
  unfold calculateContentScore, word_points, paragraph_points.
  split_conditions; reflexivity.
Qed.

(** C10: on a page without paragraph elements the concatenated paragraph
    text is empty, splitting it on white space gives the single empty
    piece, so the word count is 1 (not 0) and the word-count part of the
    content score is the lowest tier, 10 points. *)
Theorem word_count_of_no_paragraphs (doc : Document) :
  sel_p doc = [] ->
  paragraphs_text doc = ""
  /\ JS.split_ws (paragraphs_text doc) = [""]
  /\ wordCount doc = 1
  /\ word_points (wordCount doc) = 10
  /\ forall avg, calculateContentScore (wordCount doc) avg = 10 + paragraph_points avg.
Proof.
  intros H. pose proof (paragraphs_text_nil doc H) as E.
  unfold wordCount. rewrite E.
  repeat split. intros avg. apply content_score_tiers.
Qed.

Lemma word_count_of_no_paragraphs_witness :
  sel_p empty_doc = []
  /\ wordCount empty_doc = 1
  /\ word_points (wordCount empty_doc) = 10.
Proof.
  split; [reflexivity |].
  destruct (word_count_of_no_paragraphs empty_doc eq_refl) as [_ [_ [W [P _]]]].
  split; assumption.
Defined.

Lemma filter_complement {A : Type} (p : A -> bool) (l : list A) :
  JS.length l - JS.length (filter p l) = JS.length (filter (fun x => negb (p x)) l).
Proof.
  unfold JS.length. induction l as [|x l IH]; [reflexivity |].
  cbn [filter]. destruct (p x); cbn [negb List.length]; lia.
Qed.

Lemma is_internal_iff (formattedUrl : string) (el : Anchor) :
  is_internal formattedUrl el = true
  <-> exists href,
        a_href el = Some href /\ href <> ""
        /\ ((exists rest, href = ("/" ++ rest)%string)
            \/ (exists before after, href = (before ++ formattedUrl ++ after)%string)).
Proof.
  unfold is_internal, JS.startsWith. destruct (a_href el) as [href|].
  - rewrite andb_true_iff, orb_true_iff, truthy_nonempty, prefix_app, includes_substring.
    split.
    + intros [N H]. exists href. auto.
    + intros [h [E [N H]]]. inversion E. subst h. auto.
  - split; [discriminate | intros [h [E _]]; discriminate].
Qed.

(** C5, as the code has it: a link is counted internal exactly when its
    [href] is present, not empty, and starts with [/] or contains the
    normalized URL as a substring; the external count is the number of
    all other links (total minus internal), so a link whose [href] is
    missing or empty is not internal and is counted as external. *)
Theorem link_classification :
  (forall formattedUrl el,
      is_internal formattedUrl el = true
      <-> exists href,
            a_href el = Some href /\ href <> ""
            /\ ((exists rest, href = ("/" ++ rest)%string)
                \/ (exists before after, href = (before ++ formattedUrl ++ after)%string)))
  /\ (forall formattedUrl doc,
        internalLinks formattedUrl doc
        = JS.length (filter (is_internal formattedUrl) (sel_a doc)))
  /\ (forall formattedUrl doc,
        externalLinks formattedUrl doc
        = JS.length (filter (fun el => negb (is_internal formattedUrl el)) (sel_a doc)))
  /\ (forall formattedUrl text,
        negb (is_internal formattedUrl {| a_href := None; a_text := text |}) = true
        /\ negb (is_internal formattedUrl {| a_href := Some ""; a_text := text |}) = true).
Proof.
  split; [exact is_internal_iff |].
  split; [reflexivity |].
  split; [| intros; split; reflexivity].
  intros u doc. unfold externalLinks, internalLinks. apply filter_complement.
Qed.

(** C5 (counterexample): on a page whose only link has no [href], the
    link is not excluded from the external count: there are 0 internal
    and 1 external links. *)
Lemma link_without_href_counted_external :
  sel_a bare_anchor_doc = [ {| a_href := None; a_text := "top" |} ]
  /\ internalLinks (formatUrl "example.com") bare_anchor_doc = 0
  /\ externalLinks (formatUrl "example.com") bare_anchor_doc = 1
  /\ externalLinks (formatUrl "example.com") bare_anchor_doc <> 0.
Proof. repeat split. discriminate. Qed.

(* ================================================================== *)
(** ** Runs of the pipeline *)

Lemma updateProgress_event (step : Z) :
  In step [0; 1; 2; 3; 4; 5; 6; 7; 8; 9; 10] ->
  updateProgress (Some progress_callback) step
  = sendSSE (progress_event (JS.RInt (10 * step)) step).
Proof.
  simpl. intros H.
  repeat (destruct H as [<- | H]; [reflexivity |]). contradiction.
Qed.

Lemma lookupDomainAge_run (env : Env) (formattedUrl : string) (w : World) :
  lookupDomainAge env formattedUrl w
  = (Ok (domain_age_after (clock env) (whois_lookup env formattedUrl)),
     {| sse := sse w; calls := calls w ++ [call_whois_lookup formattedUrl] |}).
Proof.
  unfold lookupDomainAge, try_catch, bind, await, domain_age_after.
  destruct (whois_lookup env formattedUrl) as [[|c]|message]; reflexivity.
Qed.

Lemma run_rejected (env : Env) (url message : string) :
  axios_get env (formatUrl url) = Rejected message ->
  run_analysis env url
  = {| sse := progress_before_fetch ++ [error_event ("Analysis failed: " ++ message)];
       calls := [call_axios_get (formatUrl url)] |}.
Proof.
  intros H. unfold run_analysis, stream_analysis, analyzeWebsite.
  rewrite !updateProgress_event by (simpl; tauto).
  unfold try_catch, bind, sendSSE, await, throw, empty_world.
  cbn [sse calls app fst snd]. rewrite H. reflexivity.
Qed.

Lemma run_resolved (env : Env) (url : string) (response : Response) :
  axios_get env (formatUrl url) = Resolved response ->
  run_analysis env url
  = {| sse := progress_before_fetch ++ progress_after_fetch
              ++ [complete_event (report (facts_of env url response))];
       calls := [call_axios_get (formatUrl url); call_whois_lookup (formatUrl url)] |}.
Proof.
  intros H. unfold run_analysis, stream_analysis, analyzeWebsite.
  rewrite !updateProgress_event by (simpl; tauto).
  unfold try_catch, bind, await, empty_world.
  cbn [sse calls app fst snd sendSSE]. rewrite H.
  cbn [sse calls app fst snd sendSSE]. rewrite lookupDomainAge_run.
  reflexivity.
Qed.

(** C3: when the page fetch fails, the stream is the three progress
    events written before the fetch followed by one error event whose
    message is "Analysis failed: " and the message of the failure; the
    error event is the last event, it is the only one, and there is no
    complete event (so no report is sent).  No other external call is
    made. *)
Theorem fetch_failure_ends_in_one_error (env : Env) (url message : string) :
  axios_get env (formatUrl url) = Rejected message ->
  sse (run_analysis env url)
  = (progress_before_fetch ++ [error_event ("Analysis failed: " ++ message)])%list
  /\ last (sse (run_analysis env url)) (progress_event JS.RNaN 0)
     = error_event ("Analysis failed: " ++ message)
  /\ count_events is_error (sse (run_analysis env url)) = 1%nat
  /\ count_events is_complete (sse (run_analysis env url)) = 0%nat
  /\ calls (run_analysis env url) = [call_axios_get (formatUrl url)]
  /\ (url <> "" ->
      handle_analyze env (Some url)
      = event_stream (progress_before_fetch
                        ++ [error_event ("Analysis failed: " ++ message)])%list).
Proof.
  intros H. pose proof (run_rejected env url message H) as R.
  unfold handle_analyze. rewrite R. cbn [sse calls].
  repeat split.
  intros N. apply truthy_nonempty in N. rewrite N. reflexivity.
Qed.

Lemma fetch_failure_ends_in_one_error_witness :
  sse (run_analysis offline "example.com")
  = [ progress_event (JS.RInt 0) 0;
      progress_event (JS.RInt 0) 0;
      progress_event (JS.RInt 10) 1;
      error_event "Analysis failed: timeout of 10000ms exceeded" ]
  /\ count_events is_error (sse (run_analysis offline "example.com")) = 1%nat
  /\ count_events is_complete (sse (run_analysis offline "example.com")) = 0%nat.
Proof.
  destruct (fetch_failure_ends_in_one_error offline "example.com"
              "timeout of 10000ms exceeded" eq_refl) as [S [_ [E [C _]]]].
  split; [exact S | split; assumption].
Defined.

Lemma months_between_invalid_date (now : JS.number) :
  months_between now JS.NaN = JS.RNaN.
Proof. unfold months_between. destruct now; reflexivity. Qed.

Lemma domain_age_invalid_date (now : Z) (c : CreationDate) :
  c = FieldMissing \/ c = FieldUnparsable ->
  domain_age_after now (Resolved (WhoisRecord c)) = JS.RNaN.
Proof. intros [-> | ->]; apply months_between_invalid_date. Qed.

(** C4, evaluated on the code: once the page is fetched the stream always
    ends in one complete event and has no error event, whatever the
    lookup does.  The age is 0 when the lookup rejects or resolves with
    [null]/[undefined]; but when it resolves with a value that has no
    [creationDate], or one that is not a date, nothing is thrown and the
    age is [NaN] (reported as "NaN months"), not 0. *)
Theorem lookup_failure_after_fetch (env : Env) (url : string) (response : Response) :
  axios_get env (formatUrl url) = Resolved response ->
  let stream := sse (run_analysis env url) in
  let facts := facts_of env url response in
  stream = (progress_before_fetch ++ progress_after_fetch
            ++ [complete_event (report facts)])%list
  /\ last stream (progress_event JS.RNaN 0) = complete_event (report facts)
  /\ count_events is_error stream = 0%nat
  /\ count_events is_complete stream = 1%nat
  /\ (forall message,
        whois_lookup env (formatUrl url) = Rejected message ->
        f_domainAge facts = JS.RInt 0)
  /\ (whois_lookup env (formatUrl url) = Resolved WhoisNullish ->
      f_domainAge facts = JS.RInt 0)
  /\ (forall c,
        whois_lookup env (formatUrl url) = Resolved (WhoisRecord c) ->
        c = FieldMissing \/ c = FieldUnparsable ->
        f_domainAge facts = JS.RNaN
        /\ dom_age (domain (details (report facts)))
           = {| value := VString "NaN months"; status := failed |}).
Proof.
  intros H stream facts. subst stream.
  rewrite (run_resolved env url response H). cbn [sse].
  repeat match goal with |- _ /\ _ => split end; try reflexivity.
  - intros message W. subst facts. unfold facts_of. cbn [f_domainAge]. rewrite W. reflexivity.
  - intros W. subst facts. unfold facts_of. cbn [f_domainAge]. rewrite W. reflexivity.
  - intros c W I. subst facts. unfold report, facts_of.
    cbn [details domain dom_age f_domainAge]. rewrite W.
    rewrite (domain_age_invalid_date _ c I). split; reflexivity.
Qed.

Lemma lookup_failure_after_fetch_witness :
  count_events is_error (sse (run_analysis undated_env "example.com")) = 0%nat
  /\ count_events is_complete (sse (run_analysis undated_env "example.com")) = 1%nat
  /\ f_domainAge (facts_of undated_env "example.com"
                    {| data := empty_doc; headers := no_headers |}) = JS.RNaN
  /\ dom_age (domain (details (report (facts_of undated_env "example.com"
                                        {| data := empty_doc; headers := no_headers |}))))
     = {| value := VString "NaN months"; status := failed |}.
Proof.
  destruct (lookup_failure_after_fetch undated_env "example.com"
              {| data := empty_doc; headers := no_headers |} eq_refl)
    as [_ [_ [E [C [_ [_ N]]]]]].
  destruct (N FieldMissing eq_refl (or_introl eq_refl)) as [A D].
  repeat split; assumption.
Defined.

(** C6, the behaviour of the code in general: after a successful fetch
    the registration lookup is called once, with the normalized URL
    itself (scheme included) as its argument; when it resolves with a
    creation date the age is [Math.round] of the elapsed milliseconds
    divided by 2 592 000 000 (30 days), and the report shows that number
    followed by the word months. *)
Theorem domain_age_lookup (env : Env) (url : string) (response : Response) :
  axios_get env (formatUrl url) = Resolved response ->
  calls (run_analysis env url)
  = [call_axios_get (formatUrl url); call_whois_lookup (formatUrl url)]
  /\ JS.startsWith (formatUrl url) "http" = true
  /\ month_ms = 2592000000
  /\ month_ms = 30 * (24 * 60 * 60 * 1000)
  /\ forall ms,
       whois_lookup env (formatUrl url) = Resolved (WhoisRecord (FieldDate ms)) ->
       let age :=
         JS.Math_round (JS.div (JS.sub (JS.of_Z (clock env)) (JS.of_Z ms))
                               (JS.of_Z 2592000000)) in
       f_domainAge (facts_of env url response) = age
       /\ value (dom_age (domain (details (report (facts_of env url response)))))
          = VString (JS.toString age ++ " months").
Proof.
  intros H. rewrite (run_resolved env url response H). cbn [calls].
  split; [reflexivity |].
  split.
  { unfold formatUrl. destruct (JS.startsWith url "http") eqn:E; [exact E | reflexivity]. }
  split; [reflexivity |]. split; [reflexivity |].
  intros ms W. unfold report, facts_of.
  cbn [details domain dom_age f_domainAge value]. rewrite W. split; reflexivity.
Qed.

Lemma domain_age_lookup_witness :
  calls (run_analysis full_env "https://shop.example")
  = [call_axios_get "https://shop.example"; call_whois_lookup "https://shop.example"]
  /\ f_domainAge (facts_of full_env "https://shop.example"
                    {| data := full_doc; headers := all_headers |}) = JS.RInt 37
  /\ (jan_2024 - jan_2021) * 2 = 73 * month_ms.
Proof.
  destruct (domain_age_lookup full_env "https://shop.example"
              {| data := full_doc; headers := all_headers |} eq_refl)
    as [C [_ [_ [_ A]]]].
  destruct (A jan_2021 eq_refl) as [D _].
  split; [exact C |]. split; [| reflexivity].
  rewrite D. vm_compute. reflexivity.
Defined.

(** C6, evaluated on the code: for the target "example.com" the lookup
    is called with "http://example.com", while the host of the
    normalized URL is "example.com"; no call is made with the host. *)
Lemma lookup_argument_is_not_the_host :
  calls (run_analysis undated_env "example.com")
  = [call_axios_get "http://example.com"; call_whois_lookup "http://example.com"]
  /\ url_host (formatUrl "example.com") = "example.com"
  /\ ~ In (call_whois_lookup (url_host (formatUrl "example.com")))
          (calls (run_analysis undated_env "example.com")).
Proof.
  split; [reflexivity |]. split; [reflexivity |].
  vm_compute. intros [H | [H | []]]; discriminate.
Qed.

(** C2, evaluated on the code: on a page without paragraph elements the
    word count is 1 and the paragraph count 0, so the average paragraph
    length is [1 / 0 = Infinity] (neither 0 nor [NaN]).  It earns the top
    paragraph tier (50 points; the content score is 60), and the report
    shows [Math.round(Infinity) = Infinity] with status passed. *)
Theorem average_of_no_paragraphs (doc : Document) :
  sel_p doc = [] ->
  avgParagraphLength doc = JS.Infinity
  /\ paragraph_points (avgParagraphLength doc) = 50
  /\ calculateContentScore (wordCount doc) (avgParagraphLength doc) = 60
  /\ forall url h age perf acc,
       cnt_avgParagraphLength
         (content (details (report {| f_url := url; f_doc := doc; f_headers := h;
                                      f_domainAge := age; f_performance := perf;
                                      f_accessibility := acc |})))
       = {| value := VNumber (JS.RInf false); status := passed |}.
Proof.
  intros H.
  assert (avgParagraphLength doc = JS.Infinity) as A.
  { unfold avgParagraphLength. rewrite (wordCount_nil doc H), H. reflexivity. }
  split; [exact A |].
  split; [rewrite A; reflexivity |].
  split.
  - rewrite content_score_tiers, A, (wordCount_nil doc H). reflexivity.
  - intros. unfold report. cbn [details content cnt_avgParagraphLength f_doc].
    rewrite A. reflexivity.
Qed.

Lemma average_of_no_paragraphs_witness :
  sel_p empty_doc = []
  /\ avgParagraphLength empty_doc = JS.Infinity
  /\ calculateContentScore (wordCount empty_doc) (avgParagraphLength empty_doc) = 60.
Proof.
  split; [reflexivity |].
  destruct (average_of_no_paragraphs empty_doc eq_refl) as [A [_ [C _]]].
  split; assumption.
Defined.

(* ================================================================== *)
(** ** The final score *)

Lemma number_eqb_eq (x y : JS.number) : number_eqb x y = true -> x = y.
Proof.
  destruct x, y; simpl; try discriminate; intros H.
  - apply Bool.eqb_prop in H. congruence.
  - apply Bool.eqb_prop in H. congruence.
  - reflexivity.
  - apply andb_true_iff in H. destruct H as [H He].
    apply andb_true_iff in H. destruct H as [Hs Hm].
    apply Bool.eqb_prop in Hs. apply Pos.eqb_eq in Hm. apply Z.eqb_eq in He.
    congruence.
Qed.

Lemma partial_eqb_eq (p q : partial) : partial_eqb p q = true -> p = q.
Proof.
  destruct p as [x a], q as [y b]. unfold partial_eqb. cbn [fst snd].
  intros H. apply andb_true_iff in H. destruct H as [Hz Hn].
  apply Z.eqb_eq in Hz. apply number_eqb_eq in Hn. congruence.
Qed.

Lemma dedup_In (l acc : list partial) (p : partial) :
  In p l \/ In p acc -> In p (dedup l acc).
Proof.
  revert acc. induction l as [|x l IH]; intros acc H; cbn [dedup].
  - destruct H as [[] | H]. exact H.
  - apply IH. destruct H as [[<- | H] | H].
    + right. destruct (existsb (partial_eqb x) acc) eqn:E.
      * apply existsb_exists in E. destruct E as [y [Hy Exy]].
        apply partial_eqb_eq in Exy. subst y. exact Hy.
      * left. reflexivity.
    + left. exact H.
    + right. destruct (existsb (partial_eqb x) acc); [exact H | right; exact H].
Qed.

Lemma extend_In (w : JS.number) (k : Z) (R : list partial) (p : partial) (s : Z) :
  In p R -> In s sub_score_values -> In (advance w k p s) (extend w k R).
Proof.
  intros Hp Hs. unfold extend. apply dedup_In. left.
  apply in_flat_map. exists p. split; [exact Hp |]. apply in_map. exact Hs.
Qed.

Lemma reachable_rounds_exactly : forallb rounds_exactly reachable = true.
Proof. vm_compute. reflexivity. Qed.

(** On sub-scores that are multiples of 5 in [0, 100], the binary64
    total rounds to the exact weighted sum rounded half up. *)
Lemma reachable_spec (t : JS.number) (z : Z) :
  In (t, z) reachable -> JS.Math_round t = JS.RInt (round_hundredths z).
Proof.
  intros R. pose proof reachable_rounds_exactly as A.
  rewrite forallb_forall in A. specialize (A _ R). clear R.
  unfold rounds_exactly in A. cbn [fst snd] in A.
  destruct (JS.Math_round t); try discriminate.
  apply Z.eqb_eq in A. congruence.
Qed.

Lemma weighted_total_rounds_exactly (seo rp sec age cnt img mt perf acc : Z) :
  In seo sub_score_values -> In rp sub_score_values -> In sec sub_score_values ->
  In age sub_score_values -> In cnt sub_score_values -> In img sub_score_values ->
  In mt sub_score_values -> In perf sub_score_values -> In acc sub_score_values ->
  JS.Math_round (weighted_total seo rp sec age cnt img mt perf acc)
  = JS.RInt (round_hundredths (weighted_hundredths seo rp sec age cnt img mt perf acc)).
Proof.
  intros H1 H2 H3 H4 H5 H6 H7 H8 H9.
  apply reachable_spec.
  replace (weighted_total seo rp sec age cnt img mt perf acc,
           weighted_hundredths seo rp sec age cnt img mt perf acc)
    with (advance (JS.lit100 10) 10 (advance (JS.lit100 10) 10
           (advance (JS.lit100 10) 10 (advance (JS.lit100 10) 10
           (advance (JS.lit100 15) 15 (advance (JS.lit100 10) 10
           (advance (JS.lit100 15) 15 (advance (JS.lit100 15) 15
           (advance (JS.lit100 25) 25 (JS.of_Z 0, 0) seo) rp) sec) age) cnt) img) mt)
           perf) acc).
  - unfold reachable. do 9 (apply extend_In; [| assumption]). left. reflexivity.
  - cbv beta iota delta [advance fst snd]. unfold weighted_total, weighted_hundredths.
    apply f_equal. ring.
Qed.

Lemma seo_score_value (f : Facts) : In (seo_score f) sub_score_values.
Proof. unfold seo_score, calculateSEOScore. split_conditions; member. Qed.

Lemma required_pages_score_value (f : Facts) : In (required_pages_score f) sub_score_values.
Proof. unfold required_pages_score, calculateRequiredPagesScore. split_conditions; member. Qed.

Lemma security_score_value (f : Facts) : In (security_score f) sub_score_values.
Proof. unfold security_score, calculateSecurityScore. split_conditions; member. Qed.

Lemma domain_age_score_value (f : Facts) : In (domain_age_score f) sub_score_values.
Proof. unfold domain_age_score, calculateDomainAgeScore. split_conditions; member. Qed.

Lemma content_score_value (f : Facts) : In (content_score f) sub_score_values.
Proof. unfold content_score, calculateContentScore. split_conditions; member. Qed.

Lemma image_score_value (f : Facts) : In (image_score f) sub_score_values.
Proof. unfold image_score, calculateImageScore. split_conditions; member. Qed.

Lemma meta_score_value (f : Facts) : In (meta_score f) sub_score_values.
Proof. unfold meta_score, calculateMetaScore. split_conditions; member. Qed.

Lemma of_Z_to_number (z : Z) : to_number (JS.RInt z) = JS.of_Z z.
Proof. reflexivity. Qed.

Lemma weight_seo : lookup "seo" weights = JS.lit100 25.
Proof. reflexivity. Qed.
Lemma weight_requiredPages : lookup "requiredPages" weights = JS.lit100 15.
Proof. reflexivity. Qed.
Lemma weight_security : lookup "security" weights = JS.lit100 15.
Proof. reflexivity. Qed.
Lemma weight_domainAge : lookup "domainAge" weights = JS.lit100 10.
Proof. reflexivity. Qed.
Lemma weight_content : lookup "content" weights = JS.lit100 15.
Proof. reflexivity. Qed.
Lemma weight_images : lookup "images" weights = JS.lit100 10.
Proof. reflexivity. Qed.
Lemma weight_meta : lookup "meta" weights = JS.lit100 10.
Proof. reflexivity. Qed.
Lemma weight_performance : lookup "performance" weights = JS.lit100 10.
Proof. reflexivity. Qed.
Lemma weight_accessibility : lookup "accessibility" weights = JS.lit100 10.
Proof. reflexivity. Qed.

(** The reduction over [Object.entries(scores)] is the written-out sum. *)
Lemma finalScore_unrolled (f : Facts) (perf acc : Z) :
  calculatePerformanceScore (f_performance f) = JS.RInt perf ->
  calculateAccessibilityScore (f_accessibility f) = JS.RInt acc ->
  finalScore f
  = weighted_total (seo_score f) (required_pages_score f) (security_score f)
      (domain_age_score f) (content_score f) (image_score f) (meta_score f) perf acc.
Proof.
  intros P A.
  unfold finalScore, scores, weighted_total, seo_score, required_pages_score,
    security_score, domain_age_score, content_score, image_score, meta_score.
  cbn [fold_left fst snd]. rewrite P, A, !of_Z_to_number.
  rewrite weight_seo, weight_requiredPages, weight_security, weight_domainAge,
    weight_content, weight_images, weight_meta, weight_performance,
    weight_accessibility.
  reflexivity.
Qed.

Lemma rounded_weighted_sum_bounds (seo rp sec age cnt img mt perf acc : Z) :
  0 <= seo <= 100 -> 0 <= rp <= 100 -> 0 <= sec <= 100 -> 0 <= age <= 100 ->
  0 <= cnt <= 100 -> 0 <= img <= 100 -> 0 <= mt <= 100 -> 0 <= perf <= 100 ->
  0 <= acc <= 100 ->
  0 <= round_hundredths (weighted_hundredths seo rp sec age cnt img mt perf acc) <= 120.
Proof.
  intros. unfold round_hundredths, weighted_hundredths. split.
  - apply Z.div_pos; lia.
  - apply Z.lt_succ_r. apply Z.div_lt_upper_bound; lia.
Qed.

Lemma run_outcomes (env : Env) (url : string) (r : Report) :
  In (complete_event r) (sse (run_analysis env url)) ->
  exists response, r = report (facts_of env url response).
Proof.
  destruct (axios_get env (formatUrl url)) as [response | message] eqn:E.
  - rewrite (run_resolved env url response E). cbn [sse].
    intros H. exists response.
    apply in_app_or in H. destruct H as [H | H].
    { simpl in H. repeat (destruct H as [H | H]; [discriminate |]). contradiction. }
    apply in_app_or in H. destruct H as [H | H].
    { simpl in H. repeat (destruct H as [H | H]; [discriminate |]). contradiction. }
    destruct H as [H | []]. congruence.
  - rewrite (run_rejected env url message E). cbn [sse].
    intros H. apply in_app_or in H. destruct H as [H | H].
    { simpl in H. repeat (destruct H as [H | H]; [discriminate |]). contradiction. }
    destruct H as [H | []]. discriminate.
Qed.

Lemma final_score_of_facts (f : Facts) :
  exists perf acc,
    calculatePerformanceScore (f_performance f) = JS.RInt perf
    /\ calculateAccessibilityScore (f_accessibility f) = JS.RInt acc
    /\ finalScore f
       = weighted_total (seo_score f) (required_pages_score f) (security_score f)
           (domain_age_score f) (content_score f) (image_score f) (meta_score f) perf acc
    /\ score (report f)
       = JS.RInt (round_hundredths
                    (weighted_hundredths (seo_score f) (required_pages_score f)
                       (security_score f) (domain_age_score f) (content_score f)
                       (image_score f) (meta_score f) perf acc))
    /\ 0 <= round_hundredths
              (weighted_hundredths (seo_score f) (required_pages_score f)
                 (security_score f) (domain_age_score f) (content_score f)
                 (image_score f) (meta_score f) perf acc) <= 120.
Proof.
  destruct (performance_score_value (f_performance f)) as [perf [P Pv]].
  destruct (accessibility_score_value (f_accessibility f)) as [acc [A Av]].
  exists perf, acc.
  split; [exact P |]. split; [exact A |].
  pose proof (finalScore_unrolled f perf acc P A) as U.
  split; [exact U |]. split.
  - unfold report. cbn [score]. rewrite U.
    apply weighted_total_rounds_exactly;
      auto using seo_score_value, required_pages_score_value, security_score_value,
        domain_age_score_value, content_score_value, image_score_value, meta_score_value.
  - apply rounded_weighted_sum_bounds;
      auto using sub_score_values_bounds, seo_score_value, required_pages_score_value,
        security_score_value, domain_age_score_value, content_score_value,
        image_score_value, meta_score_value.
Qed.

(** C1, as the code has it: the score of every report is [Math.round] of
    the sum of the nine sub-scores times their weights (0.25, 0.15, 0.15,
    0.10, 0.15, 0.10, 0.10, 0.10, 0.10), added in binary64 in the order of
    the categories; this equals the exact weighted sum rounded half up.
    The weights add up to 1.20, so the score is an integer between 0 and
    120; this holds for the report of every run that completes. *)
Theorem final_score_is_rounded_weighted_sum :
  (forall f : Facts,
      exists perf acc,
        calculatePerformanceScore (f_performance f) = JS.RInt perf
        /\ calculateAccessibilityScore (f_accessibility f) = JS.RInt acc
        /\ finalScore f
           = weighted_total (seo_score f) (required_pages_score f) (security_score f)
               (domain_age_score f) (content_score f) (image_score f) (meta_score f)
               perf acc
        /\ score (report f)
           = JS.RInt (round_hundredths
                        (weighted_hundredths (seo_score f) (required_pages_score f)
                           (security_score f) (domain_age_score f) (content_score f)
                           (image_score f) (meta_score f) perf acc))
        /\ 0 <= round_hundredths
                  (weighted_hundredths (seo_score f) (required_pages_score f)
                     (security_score f) (domain_age_score f) (content_score f)
                     (image_score f) (meta_score f) perf acc) <= 120)
  /\ (forall env url r,
        In (complete_event r) (sse (run_analysis env url)) ->
        exists z, score r = JS.RInt z /\ 0 <= z <= 120).
Proof.
  split; [exact final_score_of_facts |].
  intros env url r H.
  destruct (run_outcomes env url r H) as [response ->].
  destruct (final_score_of_facts (facts_of env url response))
    as [perf [acc [_ [_ [_ [S B]]]]]].
  eexists. split; [exact S | exact B].
Qed.

(** C1 (counterexample): on the page [full_doc], served over https with
    the three security headers and a domain registered three years
    before, all nine sub-scores are 100 and the run ends with a report
    whose score is 120, outside [0, 100]. *)
Lemma final_score_can_exceed_100 :
  last (sse (run_analysis full_env "https://shop.example")) (progress_event JS.RNaN 0)
  = complete_event (report full_facts)
  /\ map snd (scores full_facts) = repeat (JS.of_Z 100) 9
  /\ score (report full_facts) = JS.RInt 120
  /\ ~ (exists z, score (report full_facts) = JS.RInt z /\ 0 <= z <= 100).
Proof.
  assert (score (report full_facts) = JS.RInt 120) as S by (vm_compute; reflexivity).
  split; [vm_compute; reflexivity |].
  split; [vm_compute; reflexivity |].
  split; [exact S |].
  intros [z [E B]]. rewrite S in E. inversion E. lia.
Qed.

(* ================================================================== *)
(** * Further properties of the two files *)

(** ** Counting words *)

Lemma has_ws_app (a b : string) : has_ws (a ++ b) = has_ws a || has_ws b.
Proof.
  induction a as [|c a IH]; cbn [append has_ws]; [reflexivity |].
  rewrite IH. apply orb_assoc.
Qed.

Lemma append_empty_r (s : string) : (s ++ "")%string = s.
Proof. induction s as [|c s IH]; cbn [append]; congruence. Qed.

Lemma append_assoc (a b c : string) : ((a ++ b) ++ c)%string = (a ++ (b ++ c))%string.
Proof. induction a as [|x a IH]; cbn [append]; congruence. Qed.

Lemma split_pieces_no_ws (s cur : string) (in_ws : bool) :
  has_ws cur = false ->
  Forall (fun piece => has_ws piece = false) (JS.split_ws_from s cur in_ws).
Proof.
  revert cur in_ws. induction s as [|c s IH]; intros cur in_ws H; cbn [JS.split_ws_from].
  - constructor; [exact H | constructor].
  - destruct (JS.isWhiteSpace c) eqn:W.
    + destruct in_ws.
      * apply IH, H.
      * constructor; [exact H | apply IH; reflexivity].
    + apply IH. rewrite has_ws_app, H. cbn [has_ws]. rewrite W. reflexivity.
Qed.

Lemma split_pieces_concat (s cur : string) (in_ws : bool) :
  fold_right String.append "" (JS.split_ws_from s cur in_ws) = (cur ++ remove_ws s)%string.
Proof.
  revert cur in_ws. induction s as [|c s IH]; intros cur in_ws;
    cbn [JS.split_ws_from remove_ws].
  - reflexivity.
  - destruct (JS.isWhiteSpace c).
    + destruct in_ws; [apply IH |].
      cbn [fold_right]. rewrite IH. reflexivity.
    + rewrite IH, append_assoc. reflexivity.
Qed.

Lemma split_pieces_count (s cur : string) (in_ws : bool) :
  List.length (JS.split_ws_from s cur in_ws) = S (ws_runs_after in_ws s).
Proof.
  revert cur in_ws. induction s as [|c s IH]; intros cur in_ws;
    cbn [JS.split_ws_from ws_runs_after].
  - reflexivity.
  - destruct (JS.isWhiteSpace c).
    + destruct in_ws; [apply IH |].
      cbn [List.length]. rewrite IH. reflexivity.
    + apply IH.
Qed.

Lemma ws_runs_without_ws (s : string) (prev_ws : bool) :
  has_ws s = false -> ws_runs_after prev_ws s = O.
Proof.
  revert prev_ws. induction s as [|c s IH]; intros prev_ws H; cbn [ws_runs_after].
  - reflexivity.
  - cbn [has_ws] in H. apply orb_false_iff in H. destruct H as [W H].
    rewrite W. apply IH, H.
Qed.

Lemma paragraphs_without_ws (ps : list string) :
  Forall (fun p => has_ws p = false) ps ->
  has_ws (fold_right String.append "" ps) = false.
Proof.
  induction 1 as [|p ps Hp _ IH]; cbn [fold_right]; [reflexivity |].
  rewrite has_ws_app, Hp, IH. reflexivity.
Qed.

Lemma wordCount_formula (doc : Document) :
  wordCount doc = 1 + Z.of_nat (ws_runs (paragraphs_text doc)).
Proof.
  unfold wordCount, JS.length, JS.split_ws, ws_runs.
  rewrite split_pieces_count. lia.
Qed.

(** X1: the word count of a page is one more than the number of runs of
    white space in the concatenated text of its paragraphs: it counts
    the pieces between separators, not words.  It is therefore at least
    1 on every page, and it is exactly 1 when no paragraph contains
    white space, however many paragraphs there are (their texts are
    concatenated without a separator).  The pieces themselves contain
    no white space and together spell the text without its white
    space. *)
Theorem word_count_counts_separators (doc : Document) :
  wordCount doc = 1 + Z.of_nat (ws_runs (paragraphs_text doc))
  /\ 1 <= wordCount doc
  /\ (Forall (fun p => has_ws p = false) (sel_p doc) -> wordCount doc = 1)
  /\ Forall (fun piece => has_ws piece = false) (JS.split_ws (paragraphs_text doc))
  /\ fold_right String.append "" (JS.split_ws (paragraphs_text doc))
     = remove_ws (paragraphs_text doc).
Proof.
  pose proof (wordCount_formula doc) as E.
  split; [exact E |]. split; [lia |]. split; [| split].
  - intros H. rewrite E. unfold ws_runs, paragraphs_text.
    rewrite ws_runs_without_ws by (apply paragraphs_without_ws, H). reflexivity.
  - apply split_pieces_no_ws. reflexivity.
  - unfold JS.split_ws. rewrite split_pieces_concat. reflexivity.
Qed.

(** ** Links with text *)

Lemma truthy_trimStart (s : string) : JS.truthy (JS.trimStart s) = has_non_ws s.
Proof.
  induction s as [|c s IH]; cbn [JS.trimStart has_non_ws]; [reflexivity |].
  destruct (JS.isWhiteSpace c); [exact IH | reflexivity].
Qed.

Lemma has_non_ws_trimStart (s : string) : has_non_ws (JS.trimStart s) = has_non_ws s.
Proof.
  induction s as [|c s IH]; cbn [JS.trimStart has_non_ws]; [reflexivity |].
  destruct (JS.isWhiteSpace c) eqn:W; [exact IH |].
  cbn [has_non_ws]. rewrite W. reflexivity.
Qed.

Lemma truthy_rev_string (s acc : string) :
  JS.truthy (JS.rev_string s acc) = JS.truthy s || JS.truthy acc.
Proof.
  revert acc. induction s as [|c s IH]; intros acc; cbn [JS.rev_string JS.truthy].
  - reflexivity.
  - rewrite IH. cbn [JS.truthy]. apply orb_true_r.
Qed.

Lemma has_non_ws_rev_string (s acc : string) :
  has_non_ws (JS.rev_string s acc) = has_non_ws s || has_non_ws acc.
Proof.
  revert acc. induction s as [|c s IH]; intros acc; cbn [JS.rev_string has_non_ws].
  - reflexivity.
  - rewrite IH. cbn [has_non_ws].
    destruct (JS.isWhiteSpace c), (has_non_ws s), (has_non_ws acc); reflexivity.
Qed.

(** X2: a link counts as having descriptive text exactly when its text
    has a code unit that is not white space: a link whose text is empty
    or only white space is not counted, whatever surrounds the text.
    The number of links with text never exceeds the number of links. *)
Theorem link_text_counts_when_not_blank :
  (forall link, has_text link = has_non_ws (a_text link))
  /\ (forall s, JS.truthy (JS.trim s) = has_non_ws s)
  /\ (forall links,
        0 <= JS.length (filter has_text links) <= JS.length links).
Proof.
  assert (forall s, JS.truthy (JS.trim s) = has_non_ws s) as T.
  { intros s. unfold JS.trim.
    rewrite truthy_rev_string, truthy_trimStart, has_non_ws_rev_string,
      has_non_ws_trimStart.
    cbn [JS.truthy has_non_ws]. rewrite !orb_false_r. reflexivity. }
  split; [intros link; apply T |]. split; [exact T |].
  intros links. unfold JS.length. pose proof (filter_length_le has_text links). lia.
Qed.

(** ** Required pages *)

Lemma lower_char_idempotent (c : ascii) : JS.lower_char (JS.lower_char c) = JS.lower_char c.
Proof. destruct c as [[] [] [] [] [] [] [] []]; reflexivity. Qed.

Lemma toLowerCase_idempotent (s : string) :
  JS.toLowerCase (JS.toLowerCase s) = JS.toLowerCase s.
Proof.
  induction s as [|c s IH]; cbn [JS.toLowerCase]; [reflexivity |].
  rewrite lower_char_idempotent, IH. reflexivity.
Qed.

Lemma truthy_toLowerCase (s : string) : JS.truthy (JS.toLowerCase s) = JS.truthy s.
Proof. destruct s; reflexivity. Qed.

Lemma href_mentions_lower (word : string) (el : Anchor) :
  href_mentions word (lower_href el) = href_mentions word el.
Proof.
  unfold href_mentions, lower_href. cbn [a_href].
  destruct (a_href el) as [href|]; cbn [option_map]; [| reflexivity].
  rewrite truthy_toLowerCase, toLowerCase_idempotent. reflexivity.
Qed.

Lemma filter_positive {A : Type} (p : A -> bool) (l : list A) :
  (JS.length (filter p l) >? 0) = true <-> (exists x, In x l /\ p x = true).
Proof.
  unfold JS.length. rewrite Z.gtb_gt. split.
  - intros H. destruct (filter p l) as [|x rest] eqn:E; [cbn in H; lia |].
    exists x. apply filter_In. rewrite E. left. reflexivity.
  - intros [x Hx]. apply filter_In in Hx.
    destruct (filter p l); [contradiction | cbn [List.length]; lia].
Qed.

Lemma filter_map_length {A B : Type} (f : A -> B) (p : B -> bool) (l : list A) :
  List.length (filter p (map f l)) = List.length (filter (fun x => p (f x)) l).
Proof.
  induction l as [|x l IH]; cbn [map filter]; [reflexivity |].
  destruct (p (f x)); cbn [List.length]; congruence.
Qed.

(** X3: a required page (privacy, contact, about, terms) is found exactly
    when some link of the page, internal or external, has a non-empty
    [href] whose lower-case form contains the word anywhere; the test
    ignores the case of the [href]: lower-casing every [href] of the
    page changes none of the four flags. *)
Theorem required_page_detection (word : string) (doc : Document) :
  (has_link_to word doc = true
   <-> (exists el href before after,
          In el (sel_a doc) /\ a_href el = Some href /\ href <> ""
          /\ JS.toLowerCase href = (before ++ word ++ after)%string))
  /\ has_link_to word (with_links doc (map lower_href (sel_a doc))) = has_link_to word doc
  /\ hasPrivacyPolicy doc = has_link_to "privacy" doc
  /\ hasContactPage doc = has_link_to "contact" doc
  /\ hasAboutPage doc = has_link_to "about" doc
  /\ hasTermsPage doc = has_link_to "terms" doc.
Proof.
  split; [| split; [| repeat split]].
  - unfold has_link_to. rewrite filter_positive. split.
    + intros [el [Hin Hm]]. unfold href_mentions in Hm.
      destruct (a_href el) as [href|] eqn:E; [| discriminate].
      apply andb_true_iff in Hm. destruct Hm as [Ht Hi].
      apply truthy_nonempty in Ht. apply includes_substring in Hi.
      destruct Hi as [before [after Hi]].
      exists el, href, before, after. auto.
    + intros [el [href [before [after [Hin [E [N Hi]]]]]]].
      exists el. split; [exact Hin |].
      unfold href_mentions. rewrite E. apply andb_true_iff. split.
      * apply truthy_nonempty, N.
      * apply includes_substring. exists before, after. exact Hi.
  - unfold has_link_to, with_links, JS.length. cbn [sel_a].
    rewrite filter_map_length.
    rewrite (filter_ext _ (href_mentions word) (href_mentions_lower word)).
    reflexivity.
Qed.

(** ** The normalized URL *)

Lemma prefix_https_http (s : string) :
  String.prefix "https" s = true -> String.prefix "http" s = true.
Proof.
  intros H. apply prefix_app in H. destruct H as [rest ->]. reflexivity.
Qed.

Lemma length_append (a b : string) :
  String.length (a ++ b) = (String.length a + String.length b)%nat.
Proof. induction a as [|c a IH]; simpl; congruence. Qed.

(** X4: normalizing a URL is idempotent and leaves exactly the targets
    that start with "http" unchanged (so a bare host such as
    "httpbin.org" is not given a scheme); the normalized URL starts with
    "https" exactly when the target itself does.  A target given without
    "https" therefore never earns the 40 points for HTTPS: its security
    sub-score is at most 60, whatever the response headers are. *)
Theorem normalized_url_properties (url : string) :
  formatUrl (formatUrl url) = formatUrl url
  /\ (formatUrl url = url <-> JS.startsWith url "http" = true)
  /\ JS.startsWith (formatUrl url) "https" = JS.startsWith url "https"
  /\ (forall env response,
        isHttps (facts_of env url response) = JS.startsWith url "https")
  /\ (forall env response,
        JS.startsWith url "https" = false ->
        security_score (facts_of env url response) <= 60).
Proof.
  assert (JS.startsWith (formatUrl url) "https" = JS.startsWith url "https") as S.
  { unfold formatUrl, JS.startsWith.
    destruct (String.prefix "http" url) eqn:E; [reflexivity |].
    destruct (String.prefix "https" url) eqn:E'; [| reflexivity].
    apply prefix_https_http in E'. rewrite E in E'. discriminate. }
  split; [| split; [| split; [exact S | split]]].
  - unfold formatUrl. destruct (JS.startsWith url "http") eqn:E.
    + rewrite E. reflexivity.
    + assert (JS.startsWith ("http://" ++ url) "http" = true) as -> by reflexivity.
      reflexivity.
  - unfold formatUrl. destruct (JS.startsWith url "http") eqn:E.
    + split; reflexivity.
    + split; [| discriminate]. intros H.
      apply (f_equal String.length) in H. rewrite length_append in H.
      cbn [String.length] in H. lia.
  - intros env response. exact S.
  - intros env response H. unfold security_score, isHttps, facts_of. cbn [f_url].
    rewrite S, H. unfold calculateSecurityScore. split_conditions; cbv zeta; lia.
Qed.

(** ** Failures of [analyzeWebsite] *)




(** X6: called without a progress callback, [analyzeWebsite] never
    returns a report: [updateProgress] skips the missing callback, but
    the direct call [onProgress(80, 8)] after the performance analysis
    throws, so a successful fetch ends in "Analysis failed: onProgress is
    not a function" (after the fetch and the registration lookup have
    been made), and a failed fetch in its own error.  Nothing is written
    to the stream. *)
Theorem analysis_needs_a_callback (env : Env) (url : string) (w : World) :
  sse (snd (analyzeWebsite env url None w)) = sse w
  /\ match axios_get env (formatUrl url) with
     | Resolved _ =>
         analyzeWebsite env url None w
         = (Throw "Analysis failed: onProgress is not a function",
            {| sse := sse w;
               calls := calls w ++ [call_axios_get (formatUrl url);
                                    call_whois_lookup (formatUrl url)] |})
     | Rejected message =>
         analyzeWebsite env url None w
         = (Throw ("Analysis failed: " ++ message),
            {| sse := sse w; calls := calls w ++ [call_axios_get (formatUrl url)] |})
     end.
Proof.
  unfold analyzeWebsite, updateProgress, call_onProgress.
  unfold try_catch, bind, await, ret, throw.
  destruct (axios_get env (formatUrl url)) as [response | message].
  - cbn [sse calls fst snd]. rewrite lookupDomainAge_run. cbn [sse calls fst snd].
    rewrite <- app_assoc. split; reflexivity.
  - cbn [sse calls fst snd]. split; reflexivity.
Qed.

(** ** The stream and the external calls of a request *)

Lemma stream_of_request (env : Env) (url : string) :
  (exists message,
      axios_get env (formatUrl url) = Rejected message
      /\ run_analysis env url
         = {| sse := progress_before_fetch ++ [error_event ("Analysis failed: " ++ message)];
              calls := [call_axios_get (formatUrl url)] |})
  \/ (exists response,
         axios_get env (formatUrl url) = Resolved response
         /\ run_analysis env url
            = {| sse := progress_before_fetch ++ progress_after_fetch
                        ++ [complete_event (report (facts_of env url response))];
                 calls := [call_axios_get (formatUrl url);
                           call_whois_lookup (formatUrl url)] |}).
Proof.
  destruct (axios_get env (formatUrl url)) as [response | message] eqn:E.
  - right. exists response. split; [reflexivity | apply run_resolved, E].
  - left. exists message. split; [reflexivity | apply run_rejected, E].
Qed.

(** X7: the response to [GET /api/analyze].  Without a [url] (or with
    an empty one) it is the JSON error 400 "URL is required".
    Otherwise it is an event stream made of progress events followed by
    exactly one terminal event (complete or error), which is the last
    event; the stream starts with progress 0 of step 0, every progress
    event reports a step between 0 and 10 with ten times the step as
    percentage, and the steps never decrease. *)
Theorem response_of_the_handler (env : Env) (url : option string) :
  match url with
  | None => handle_analyze env url = json_response 400 "URL is required"
  | Some EmptyString => handle_analyze env url = json_response 400 "URL is required"
  | Some _ =>
      exists before terminal,
        handle_analyze env url = event_stream (before ++ [terminal])
        /\ is_terminal terminal = true
        /\ forallb progress_well_formed before = true
        /\ steps_never_decrease before = true
        /\ hd terminal before = progress_event (JS.RInt 0) 0
        /\ count_events is_terminal (before ++ [terminal]) = 1%nat
  end.
Proof.
  destruct url as [[|c u] |]; [reflexivity | | reflexivity].
  unfold handle_analyze. cbn [JS.truthy].
  destruct (stream_of_request env (String c u)) as [[message [_ ->]] | [response [_ ->]]];
    cbn [sse].
  - exists progress_before_fetch, (error_event ("Analysis failed: " ++ message)).
    repeat split.
  - exists (progress_before_fetch ++ progress_after_fetch)%list,
      (complete_event (report (facts_of env (String c u) response))).
    rewrite <- app_assoc. repeat split.
Qed.

(** ** Tiers and ranges of the sub-scores *)

(** X8: the domain-age score never decreases with the age: an older
    domain never scores less.  It is at least 80 exactly from 6 months on
    and 100 exactly from 12 months on; an age that is [NaN] scores the
    minimum, 20, like an age of 0. *)
Theorem domain_age_score_is_monotone (younger older : Z) :
  younger <= older ->
  calculateDomainAgeScore (JS.RInt younger) <= calculateDomainAgeScore (JS.RInt older)
  /\ (80 <= calculateDomainAgeScore (JS.RInt older) <-> 6 <= older)
  /\ (calculateDomainAgeScore (JS.RInt older) = 100 <-> 12 <= older)
  /\ calculateDomainAgeScore JS.RNaN = 20
  /\ calculateDomainAgeScore (JS.RInt 0) = 20.
Proof.
  intros H. unfold calculateDomainAgeScore, JS.rge.
  repeat match goal with
         | |- context [?a <=? ?b] => destruct (Z.leb_spec a b)
         end; repeat split; intros; lia.
Qed.

Lemma domain_age_score_is_monotone_witness :
  5 <= 8
  /\ calculateDomainAgeScore (JS.RInt 5) <= calculateDomainAgeScore (JS.RInt 8).
Proof.
  split; [lia |].
  destruct (domain_age_score_is_monotone 5 8 ltac:(lia)) as [M _]. exact M.
Defined.

Lemma performance_of_page (doc : Document) :
  exists p,
    calculatePerformanceScore (analyzePerformance doc) = JS.RInt p /\ 50 <= p <= 100.
Proof.
  unfold calculatePerformanceScore, analyzePerformance.
  cbn [perf_scripts perf_stylesheets perf_loadTime status].
  split_conditions; cbv beta iota zeta delta [add_by_status];
    (eexists; split; [apply round_of_small_integer; lia | lia]).
Qed.

Lemma light_page_performance (scripts sheets : nat) (doc : Document) :
  In scripts (seq 0 11) -> In sheets (seq 0 6) ->
  sel_script doc = scripts -> sel_stylesheet doc = sheets ->
  calculatePerformanceScore (analyzePerformance doc) = JS.RInt 100.
Proof.
  intros Hs Ht Es Et.
  unfold calculatePerformanceScore, analyzePerformance.
  cbn [perf_scripts perf_stylesheets perf_loadTime status].
  rewrite Es, Et. clear Es Et doc.
  cbn [seq In] in Hs, Ht.
  repeat (destruct Hs as [<- | Hs]; [| try contradiction]);
    repeat (destruct Ht as [<- | Ht]; [| try contradiction]);
    vm_compute; reflexivity.
Qed.

(** X9: the performance sub-score of a fetched page is never below 50,
    because the performance analysis only ever reports passed or
    warning; and a page with at most 10 scripts and at most 5 style
    sheets always scores 100: with at most 15 resources the estimated
    load time cannot exceed 3 seconds. *)
Theorem performance_score_of_a_page (doc : Document) :
  (exists p,
      calculatePerformanceScore (analyzePerformance doc) = JS.RInt p /\ 50 <= p <= 100)
  /\ status (perf_scripts (analyzePerformance doc)) <> failed
  /\ status (perf_stylesheets (analyzePerformance doc)) <> failed
  /\ status (perf_loadTime (analyzePerformance doc)) <> failed
  /\ ((sel_script doc <= 10)%nat -> (sel_stylesheet doc <= 5)%nat ->
      calculatePerformanceScore (analyzePerformance doc) = JS.RInt 100).
Proof.
  split; [apply performance_of_page |].
  unfold analyzePerformance. cbn [perf_scripts perf_stylesheets perf_loadTime status].
  repeat split; try (split_conditions; discriminate).
  intros Hs Ht.
  apply (light_page_performance (sel_script doc) (sel_stylesheet doc));
    try reflexivity; apply in_seq; lia.
Qed.

Lemma accessibility_without_forms (a : Accessibility) :
  status (acc_forms a) = failed ->
  exists z, calculateAccessibilityScore a = JS.RInt z /\ 0 <= z <= 70.
Proof.
  intros H. unfold calculateAccessibilityScore. rewrite H.
  destruct (status (acc_images a)), (status (acc_links a));
    cbv beta iota zeta delta [add_by_status];
    (eexists; split; [apply round_of_small_integer; lia | lia]).
Qed.

Lemma accessibility_without_images (a : Accessibility) :
  status (acc_images a) = failed ->
  exists z, calculateAccessibilityScore a = JS.RInt z /\ 0 <= z <= 60.
Proof.
  intros H. unfold calculateAccessibilityScore. rewrite H.
  destruct (status (acc_links a)), (status (acc_forms a));
    cbv beta iota zeta delta [add_by_status];
    (eexists; split; [apply round_of_small_integer; lia | lia]).
Qed.

(** X10: a category of the accessibility analysis that finds no element
    (no image, no link, or no form) reports 0% (0/0) with status failed
    and earns nothing: a page without a form cannot score more than 70
    accessibility points, a page without an image not more than 60, and
    a page with no image, link or form scores 0. *)
Theorem accessibility_of_missing_elements (doc : Document) :
  (sel_img doc = [] ->
   acc_images (analyzeAccessibility doc)
   = {| value := VString "0% of images have alt text (0/0)"; status := failed |})
  /\ (sel_a doc = [] ->
      acc_links (analyzeAccessibility doc)
      = {| value := VString "0% of links have descriptive text (0/0)"; status := failed |})
  /\ (sel_form doc = [] ->
      acc_forms (analyzeAccessibility doc)
      = {| value := VString "0% of forms have labels (0/0)"; status := failed |})
  /\ (sel_form doc = [] ->
      exists z,
        calculateAccessibilityScore (analyzeAccessibility doc) = JS.RInt z /\ 0 <= z <= 70)
  /\ (sel_img doc = [] ->
      exists z,
        calculateAccessibilityScore (analyzeAccessibility doc) = JS.RInt z /\ 0 <= z <= 60)
  /\ (sel_img doc = [] -> sel_a doc = [] -> sel_form doc = [] ->
      calculateAccessibilityScore (analyzeAccessibility doc) = JS.RInt 0).
Proof.
  assert (sel_img doc = [] ->
          acc_images (analyzeAccessibility doc)
          = {| value := VString "0% of images have alt text (0/0)"; status := failed |}) as I.
  { intros H. unfold analyzeAccessibility. cbn [acc_images]. rewrite H. reflexivity. }
  assert (sel_a doc = [] ->
          acc_links (analyzeAccessibility doc)
          = {| value := VString "0% of links have descriptive text (0/0)";
               status := failed |}) as L.
  { intros H. unfold analyzeAccessibility. cbn [acc_links]. rewrite H. reflexivity. }
  assert (sel_form doc = [] ->
          acc_forms (analyzeAccessibility doc)
          = {| value := VString "0% of forms have labels (0/0)"; status := failed |}) as F.
  { intros H. unfold analyzeAccessibility. cbn [acc_forms]. rewrite H. reflexivity. }
  repeat match goal with |- _ /\ _ => split end; try assumption.
  - intros H. apply accessibility_without_forms. rewrite (F H). reflexivity.
  - intros H. apply accessibility_without_images. rewrite (I H). reflexivity.
  - intros Hi Ha Hf. unfold calculateAccessibilityScore.
    rewrite (I Hi), (L Ha), (F Hf). reflexivity.
Qed.

(** X11: on a fetched page the counts of images with alt text and with
    a title never exceed the number of images, so the image sub-score
    is 0, 40, 70 or 100, and it is 0 exactly when the page has no
    image. *)
Theorem image_score_of_a_page (f : Facts) :
  0 <= imagesWithAlt (f_doc f) <= JS.length (sel_img (f_doc f))
  /\ 0 <= imagesWithTitle (f_doc f) <= JS.length (sel_img (f_doc f))
  /\ In (image_score f) [0; 40; 70; 100]
  /\ (image_score f = 0 <-> sel_img (f_doc f) = []).
Proof.
  unfold image_score, calculateImageScore, imagesWithAlt, imagesWithTitle, JS.length.
  pose proof (filter_length_le has_alt (sel_img (f_doc f))) as A.
  pose proof (filter_length_le has_title (sel_img (f_doc f))) as T.
  assert (sel_img (f_doc f) = [] <-> Z.of_nat (List.length (sel_img (f_doc f))) = 0) as E.
  { destruct (sel_img (f_doc f)); cbn [List.length]; split; (congruence || lia). }
  rewrite E.
  repeat match goal with
         | |- context [?a >? ?b] => destruct (Z.gtb_spec a b)
         end; cbv zeta; cbn [In]; repeat split; intros; try lia; auto 8.
Qed.

(** ** The displayed status and the score *)

Lemma ge_100_ge_50 (x : JS.number) :
  JS.ge x (JS.of_Z 100) = true -> JS.ge x (JS.of_Z 50) = true.
Proof.
  replace (JS.of_Z 100) with (S754_finite false 7036874417766400 (-46))
    by (vm_compute; reflexivity).
  replace (JS.of_Z 50) with (S754_finite false 7036874417766400 (-47))
    by (vm_compute; reflexivity).
  unfold JS.ge, SFleb, SFcompare.
  destruct x as [s | s | | s m e]; try (destruct s); try discriminate; try reflexivity.
  destruct (Z.compare_spec (-46) e) as [E | E | E];
    destruct (Z.compare_spec (-47) e) as [E' | E' | E']; try lia;
    try discriminate; try reflexivity.
Qed.

(** X12: the status the report displays agrees with the points that were
    scored.  The domain age is shown as passed exactly when it scored at
    least 80; the word count is shown as passed exactly when it earned
    at least 30 of its 50 points; the average paragraph length is shown
    as passed exactly when it earned at least 30 of its 50 points; and
    the content score is the sum of these two parts. *)
Theorem status_agrees_with_points (f : Facts) :
  (status (dom_age (domain (details (report f)))) = passed <-> 80 <= domain_age_score f)
  /\ (status (cnt_wordCount (content (details (report f)))) = passed
      <-> 30 <= word_points (wordCount (f_doc f)))
  /\ (status (cnt_avgParagraphLength (content (details (report f)))) = passed
      <-> 30 <= paragraph_points (avgParagraphLength (f_doc f)))
  /\ content_score f
     = word_points (wordCount (f_doc f)) + paragraph_points (avgParagraphLength (f_doc f)).
Proof.
  unfold report. cbn [details domain dom_age content cnt_wordCount cnt_avgParagraphLength status].
  split; [| split; [| split]].
  - unfold domain_age_score, calculateDomainAgeScore, pass_or.
    destruct (f_domainAge f) as [| [] | z]; cbn [JS.rge negb].
    + split; [discriminate | lia].
    + split; [discriminate | lia].
    + split; [lia | reflexivity].
    + repeat match goal with
             | |- context [?a <=? ?b] => destruct (Z.leb_spec a b)
             end; split; intros; try lia; try reflexivity; try discriminate.
  - unfold word_points, pass_or.
    repeat match goal with
           | |- context [?a >=? ?b] => destruct (Z.geb_spec a b)
           end; split; intros; try lia; try reflexivity; try discriminate.
  - unfold paragraph_points, pass_or.
    destruct (JS.ge (avgParagraphLength (f_doc f)) (JS.of_Z 100)) eqn:H100.
    + rewrite (ge_100_ge_50 _ H100). split; [lia | reflexivity].
    + destruct (JS.ge (avgParagraphLength (f_doc f)) (JS.of_Z 50)).
      * split; [lia | reflexivity].
      * split; [discriminate |]. split_conditions; lia.
  - apply content_score_tiers.
Qed.

(** ** The score of a completed analysis *)

Lemma domain_age_score_at_least_20 (f : Facts) : 20 <= domain_age_score f.
Proof. unfold domain_age_score, calculateDomainAgeScore. split_conditions; lia. Qed.

Lemma content_score_at_least_20 (f : Facts) : 20 <= content_score f.
Proof. unfold content_score, calculateContentScore. split_conditions; cbv zeta; lia. Qed.

(** X13: the report of every completed analysis has a score between 10
    and 120.  The lower bound comes from the three sub-scores that are
    never 0 on a fetched page: domain age (at least 20), content (at
    least 20) and performance (at least 50).  It is reached: a page that
    satisfies no criterion and loads 30 scripts and 6 style sheets
    scores exactly 10. *)
Theorem completed_score_at_least_10 (env : Env) (url : string) (r : Report) :
  In (complete_event r) (sse (run_analysis env url)) ->
  exists z, score r = JS.RInt z /\ 10 <= z <= 120.
Proof.
  intros H. destruct (run_outcomes env url r H) as [response ->].
  destruct (final_score_of_facts (facts_of env url response))
    as [perf [acc [P [A [_ [S B]]]]]].
  eexists. split; [exact S |]. split; [| apply B].
  destruct (performance_of_page (data response)) as [p [P' Bp]].
  unfold facts_of in P. cbn [f_performance] in P. rewrite P' in P.
  injection P as <-.
  destruct (accessibility_score_value
              (f_accessibility (facts_of env url response))) as [a [A' Ba]].
  rewrite A' in A. injection A as <-.
  pose proof (sub_score_values_bounds _ (seo_score_value (facts_of env url response))).
  pose proof (sub_score_values_bounds _
                (required_pages_score_value (facts_of env url response))).
  pose proof (sub_score_values_bounds _ (security_score_value (facts_of env url response))).
  pose proof (sub_score_values_bounds _ (image_score_value (facts_of env url response))).
  pose proof (sub_score_values_bounds _ (meta_score_value (facts_of env url response))).
  pose proof (sub_score_values_bounds _ Ba).
  pose proof (domain_age_score_at_least_20 (facts_of env url response)).
  pose proof (content_score_at_least_20 (facts_of env url response)).
  unfold round_hundredths, weighted_hundredths.
  apply Z.div_le_lower_bound; lia.
Qed.

Lemma completed_score_at_least_10_witness :
  In (complete_event (report (facts_of heavy_env "example.com"
                                {| data := heavy_doc; headers := no_headers |})))
     (sse (run_analysis heavy_env "example.com"))
  /\ score (report (facts_of heavy_env "example.com"
                      {| data := heavy_doc; headers := no_headers |})) = JS.RInt 10
  /\ exists z,
       score (report (facts_of heavy_env "example.com"
                        {| data := heavy_doc; headers := no_headers |})) = JS.RInt z
       /\ 10 <= z <= 120.
Proof.
  assert (In (complete_event (report (facts_of heavy_env "example.com"
                                        {| data := heavy_doc; headers := no_headers |})))
             (sse (run_analysis heavy_env "example.com"))) as H.
  { rewrite (run_resolved heavy_env "example.com"
               {| data := heavy_doc; headers := no_headers |} eq_refl).
    cbn [sse]. apply in_or_app. right. apply in_or_app. right. left. reflexivity. }
  split; [exact H |]. split; [vm_compute; reflexivity |].
  exact (completed_score_at_least_10 heavy_env "example.com" _ H).
Defined.

(** ** The text of an event *)

Lemma line_breaks_app (a b : string) :
  line_breaks (a ++ b) = (line_breaks a + line_breaks b)%nat.
Proof.
  induction a as [|c a IH]; cbn [append line_breaks]; [reflexivity |].
  rewrite IH. apply Nat.add_assoc.
Qed.

Lemma json_escape_one_line (c : ascii) : line_breaks (json_escape c) = O.
Proof. destruct c as [[] [] [] [] [] [] [] []]; reflexivity. Qed.

Lemma json_chars_one_line (s : string) : line_breaks (json_chars s) = O.
Proof.
  induction s as [|c s IH]; cbn [json_chars]; [reflexivity |].
  rewrite line_breaks_app, json_escape_one_line, IH. reflexivity.
Qed.

Lemma json_string_one_line (s : string) : line_breaks (json_string s) = O.
Proof.
  unfold json_string. cbn [line_breaks].
  rewrite line_breaks_app, json_chars_one_line. reflexivity.
Qed.

Lemma digits_one_line (d : Decimal.uint) : line_breaks (NilEmpty.string_of_uint d) = O.
Proof. induction d; cbn [NilEmpty.string_of_uint line_breaks]; auto. Qed.

Lemma Z_toString_one_line (z : Z) : line_breaks (JS.Z_toString z) = O.
Proof.
  unfold JS.Z_toString, NilZero.string_of_int, NilZero.string_of_uint.
  destruct (Z.to_int z) as [d | d]; destruct d; cbn [line_breaks];
    try reflexivity; apply (digits_one_line (_ _)).
Qed.

Lemma json_number_one_line (x : JS.rounded) : line_breaks (json_number x) = O.
Proof. destruct x; [reflexivity | reflexivity | apply Z_toString_one_line]. Qed.

Lemma json_members_one_line (members : list (string * option string)) (first : bool) :
  Forall one_line_member members -> line_breaks (json_members members first) = O.
Proof.
  intros H. revert first. induction H as [|[key [v|]] rest Hm _ IH]; intros first;
    cbn [json_members]; [reflexivity | | apply IH].
  unfold one_line_member in Hm. cbn [snd] in Hm.
  rewrite !line_breaks_app, json_string_one_line, Hm, IH.
  destruct first; reflexivity.
Qed.

Lemma json_object_one_line (members : list (string * option string)) :
  Forall one_line_member members -> line_breaks (json_object members) = O.
Proof.
  intros H. unfold json_object. cbn [append line_breaks].
  rewrite line_breaks_app, (json_members_one_line members true H). reflexivity.
Qed.

Lemma json_criterion_one_line (key : string) (c : CriterionResult) :
  one_line_member (key, json_criterion c).
Proof.
  unfold one_line_member, json_criterion. cbn [snd].
  apply json_object_one_line. repeat constructor; unfold one_line_member; cbn [snd].
  - destruct (value c) as [| [] | n | s]; cbn [json_value];
      [exact I | reflexivity | reflexivity | apply json_number_one_line
      | apply json_string_one_line].
  - apply json_string_one_line.
Qed.

Lemma json_group_one_line (key : string) (members : list (string * option string)) :
  Forall one_line_member members -> one_line_member (key, Some (json_object members)).
Proof. intros H. unfold one_line_member. cbn [snd]. apply json_object_one_line, H. Qed.

Lemma json_report_one_line (r : Report) : line_breaks (json_report r) = O.
Proof.
  unfold json_report. apply json_object_one_line. constructor; [| constructor; [| constructor]].
  - unfold one_line_member. cbn [snd]. apply json_number_one_line.
  - unfold json_details. apply json_group_one_line.
    repeat (apply Forall_cons || apply Forall_nil);
      apply json_group_one_line;
      repeat (apply Forall_cons || apply Forall_nil);
      apply json_criterion_one_line.
Qed.

Lemma json_event_one_line (e : Event) : line_breaks (json_event e) = O.
Proof.
  destruct e as [progress step | result | message]; unfold json_event;
    apply json_object_one_line;
    repeat (apply Forall_cons || apply Forall_nil);
    unfold one_line_member; cbn [snd];
    first [ apply json_string_one_line | apply json_number_one_line
          | apply Z_toString_one_line | apply json_report_one_line ].
Qed.

(** X14: the text written for an event is one line.  Whatever texts the
    page supplies (title, meta description, error message), the JSON
    after "data: " contains no line feed and no carriage return, because
    every control character of a string is escaped; the two line feeds
    that end the frame are its only line breaks, so no page content can
    end an event early or start another one.  A stream of n events has
    exactly 2n line breaks. *)
Theorem event_frame_is_one_line :
  (forall e, line_breaks (json_event e) = O)
  /\ (forall e, line_breaks (sse_frame e) = 2%nat)
  /\ (forall stream,
        line_breaks (fold_right String.append "" (map sse_frame stream))
        = (2 * List.length stream)%nat)
  /\ (forall s, line_breaks (json_string s) = O)
  /\ json_string (sel_title_text hostile_doc)
     = String quotation_mark
         ("\ndata: {\" ++ String quotation_mark ("type\\\r" ++ String quotation_mark "")).
Proof.
  assert (forall e, line_breaks (sse_frame e) = 2%nat) as F.
  { intros e. unfold sse_frame. cbn [append line_breaks].
    rewrite line_breaks_app, json_event_one_line. reflexivity. }
  split; [exact json_event_one_line |]. split; [exact F |].
  split; [| split; [exact json_string_one_line | reflexivity]].
  induction stream as [|e stream IH]; cbn [map fold_right]; [reflexivity |].
  rewrite line_breaks_app, F, IH. cbn [List.length]. lia.
Qed.

(** ** Full marks *)

(** X15: the five scorers that add points per satisfied item give 100
    exactly when every item is satisfied and 0 exactly when none is:
    no item can be compensated by another. *)
Theorem full_marks_need_every_item
    (title : string) (metaDescription : option string)
    (h1Count h2Count h3Count internal external : Z)
    (privacy contact about terms : bool)
    (https hsts xss csp : bool)
    (total withAlt withTitle : Z)
    (viewport robots keywords author social : bool) :
  (calculateSEOScore title metaDescription h1Count h2Count h3Count internal external = 100
   <-> JS.truthy title && JS.truthy_attr metaDescription && (h1Count >? 0) && (h2Count >? 0)
       && (h3Count >? 0) && (internal >? 0) && (external >? 0) = true)
  /\ (calculateSEOScore title metaDescription h1Count h2Count h3Count internal external = 0
      <-> JS.truthy title || JS.truthy_attr metaDescription || (h1Count >? 0)
          || (h2Count >? 0) || (h3Count >? 0) || (internal >? 0) || (external >? 0) = false)
  /\ (calculateRequiredPagesScore privacy contact about terms = 100
      <-> privacy && contact && about && terms = true)
  /\ (calculateRequiredPagesScore privacy contact about terms = 0
      <-> privacy || contact || about || terms = false)
  /\ (calculateSecurityScore https hsts xss csp = 100 <-> https && hsts && xss && csp = true)
  /\ (calculateSecurityScore https hsts xss csp = 0 <-> https || hsts || xss || csp = false)
  /\ (calculateImageScore total withAlt withTitle = 100
      <-> (total >? 0) && (withAlt >? 0) && (withTitle >? 0) = true)
  /\ (calculateImageScore total withAlt withTitle = 0
      <-> (total >? 0) || (withAlt >? 0) || (withTitle >? 0) = false)
  /\ (calculateMetaScore viewport robots keywords author social = 100
      <-> viewport && robots && keywords && author && social = true)
  /\ (calculateMetaScore viewport robots keywords author social = 0
      <-> viewport || robots || keywords || author || social = false).
Proof.
  unfold calculateSEOScore, calculateRequiredPagesScore, calculateSecurityScore,
    calculateImageScore, calculateMetaScore.
  repeat match goal with |- _ /\ _ => split end;
    repeat match goal with
           | |- context [if ?b then _ else _] => destruct b
           end;
    cbv zeta; cbn [andb orb]; split; intros; try lia; try reflexivity; try discriminate.
Qed.

(** ** Binary64 facts behind the ratios *)

Lemma digits2_pos_size (p : positive) : digits2_pos p = Pos.size p.
Proof. induction p; simpl; congruence. Qed.

Lemma digits2_pos_shift (p k : positive) :
  digits2_pos (Pos.iter xO p k) = (digits2_pos p + k)%positive.
Proof.
  induction k as [|k IH] using Pos.peano_ind.
  - simpl. lia.
  - rewrite Pos.iter_succ. cbn [digits2_pos]. rewrite IH. lia.
Qed.

Lemma small_digits (p : positive) : Z.pos p < 2 ^ 53 -> (digits2_pos p <= 53)%positive.
Proof.
  intros H. rewrite digits2_pos_size.
  pose proof (Pos.size_le p) as L.
  apply Pos2Z.pos_le_pos in L. rewrite Pos2Z.inj_pow in L.
  change (Z.pos p~0) with (2 * Z.pos p) in L.
  assert (2 ^ Z.pos (Pos.size p) < 2 ^ 54) as M.
  { change (2 ^ 54) with (2 * 2 ^ 53). lia. }
  apply Z.pow_lt_mono_r_iff in M; lia.
Qed.

Lemma fexp_normal (x : Z) : -1021 <= x -> fexp JS.prec JS.emax x = x - 53.
Proof. intros H. unfold fexp, SpecFloat.emin, JS.prec, JS.emax. lia. Qed.

(** An integer between 1 and 2^53 - 1 is a finite positive Number. *)
Lemma of_Z_finite (z : Z) :
  0 < z < 2 ^ 53 -> exists m e, JS.of_Z z = S754_finite false m e.
Proof.
  intros [Hpos Hlt]. destruct z as [|p|p]; try lia.
  pose proof (small_digits p Hlt) as D.
  unfold JS.of_Z, binary_normalize, binary_round.
  rewrite fexp_normal by lia.
  unfold shl_align.
  destruct (Z.pos (digits2_pos p) + 0 - 53 - 0) as [|k|k] eqn:E; try lia.
  - unfold binary_round_aux, shr_fexp. cbn [Zdigits2].
    rewrite fexp_normal by lia.
    replace (Z.pos (digits2_pos p) + 0 - 53 - 0) with 0 by lia.
    cbn [shr shr_record_of_loc shr_m loc_of_shr_record round_nearest_even].
    cbn [Zdigits2]. rewrite fexp_normal by lia.
    replace (Z.pos (digits2_pos p) + 0 - 53 - 0) with 0 by lia.
    cbn [shr shr_record_of_loc shr_m]. 
    replace (0 <=? JS.emax - JS.prec) with true by reflexivity.
    eauto.
  - unfold binary_round_aux, shr_fexp. cbn [Zdigits2].
    rewrite digits2_pos_shift.
    rewrite fexp_normal by lia.
    replace (Z.pos (digits2_pos p + k) + (Z.pos (digits2_pos p) + 0 - 53) - 53
             - (Z.pos (digits2_pos p) + 0 - 53)) with 0 by lia.
    cbn [shr shr_record_of_loc shr_m loc_of_shr_record round_nearest_even].
    cbn [Zdigits2]. rewrite digits2_pos_shift.
    rewrite fexp_normal by lia.
    replace (Z.pos (digits2_pos p + k) + (Z.pos (digits2_pos p) + 0 - 53) - 53
             - (Z.pos (digits2_pos p) + 0 - 53)) with 0 by lia.
    cbn [shr shr_record_of_loc shr_m].
    replace (Z.pos (digits2_pos p) + 0 - 53 <=? JS.emax - JS.prec) with true
      by (symmetry; apply Z.leb_le; unfold JS.emax, JS.prec; lia).
    eauto.
Qed.





Lemma iter_pos_invariant {A : Type} (P : A -> Prop) (f : A -> A) :
  (forall x, P x -> P (f x)) -> forall n x, P x -> P (iter_pos f n x).
Proof.
  intros Hf. induction n as [n IH | n IH |]; intros x Hx; cbn [iter_pos]; auto.
Qed.

Lemma shr_1_nonneg (mrs : shr_record) : 0 <= shr_m mrs -> 0 <= shr_m (shr_1 mrs).
Proof.
  destruct mrs as [m r s]. cbn [shr_m]. intros H.
  destruct m as [|[p|p|]|p]; cbn [shr_1 shr_m]; lia.
Qed.

Lemma shr_fexp_nonneg (m e : Z) (l : location) :
  0 <= m -> 0 <= shr_m (fst (shr_fexp JS.prec JS.emax m e l)).
Proof.
  intros H. unfold shr_fexp, shr.
  assert (0 <= shr_m (shr_record_of_loc m l)) as H0.
  { destruct l as [|[]]; exact H. }
  destruct (fexp JS.prec JS.emax (Zdigits2 m + e) - e) as [|n|n]; cbn [fst]; try exact H0.
  apply (iter_pos_invariant (fun mrs => 0 <= shr_m mrs)); [apply shr_1_nonneg | exact H0].
Qed.

Lemma round_nearest_even_nonneg (m : Z) (l : location) :
  0 <= m -> 0 <= round_nearest_even m l.
Proof.
  intros H. unfold round_nearest_even.
  destruct l as [|[]]; try exact H; try lia. destruct (Z.even m); lia.
Qed.

(** Rounding a non-negative mantissa with sign [false] gives a
    non-negative Number. *)
Lemma binary_round_aux_nonneg (m e : Z) (l : location) :
  0 <= m ->
  JS.ge (binary_round_aux JS.prec JS.emax false m e l) (JS.of_Z 0) = true.
Proof.
  intros H. unfold binary_round_aux.
  pose proof (shr_fexp_nonneg m e l H) as H1.
  destruct (shr_fexp JS.prec JS.emax m e l) as [mrs' e']. cbn [fst] in H1.
  pose proof (shr_fexp_nonneg _ e' loc_Exact
                (round_nearest_even_nonneg _ (loc_of_shr_record mrs') H1)) as H2.
  destruct (shr_fexp JS.prec JS.emax
              (round_nearest_even (shr_m mrs') (loc_of_shr_record mrs')) e' loc_Exact)
    as [mrs'' e'']. cbn [fst] in H2.
  destruct (shr_m mrs'') as [|p|p]; try lia; [reflexivity |].
  destruct (e'' <=? JS.emax - JS.prec); reflexivity.
Qed.

Lemma div_core_nonneg (m n : positive) (e f : Z) :
  0 <= fst (fst (SFdiv_core_binary JS.prec JS.emax (Z.pos m) e (Z.pos n) f)).
Proof.
  unfold SFdiv_core_binary. cbv zeta.
  match goal with
  | |- context [Z.div_eucl ?a ?b] =>
      assert (0 <= a) as Ha;
      [| pose proof (Z.div_pos a b Ha ltac:(lia)) as P; unfold Z.div in P;
         destruct (Z.div_eucl a b) as [q r]; exact P]
  end.
  match goal with
  | |- 0 <= match ?s with _ => _ end => destruct s
  end; try lia.
  apply Z.shiftl_nonneg. lia.
Qed.

(** A positive finite Number divided by [+0] or by a positive finite
    Number is a non-negative Number (never [NaN]). *)
Lemma div_of_positive_nonneg (m n : positive) (e f : Z) (y : JS.number) :
  y = S754_zero false \/ y = S754_finite false n f ->
  JS.ge (JS.div (S754_finite false m e) y) (JS.of_Z 0) = true.
Proof.
  intros [-> | ->]; [reflexivity |].
  unfold JS.div, SFdiv.
  pose proof (div_core_nonneg m n e f) as H.
  destruct (SFdiv_core_binary JS.prec JS.emax (Z.pos m) e (Z.pos n) f) as [[q e'] l].
  cbn [fst] in H. cbn [xorb]. apply binary_round_aux_nonneg, H.
Qed.

Lemma of_Z_count (n : Z) :
  0 <= n < 2 ^ 53 ->
  JS.of_Z n = S754_zero false \/ exists m e, JS.of_Z n = S754_finite false m e.
Proof.
  intros H. destruct (Z.eq_dec n 0) as [-> | N].
  - left. reflexivity.
  - right. apply of_Z_finite. lia.
Qed.



(** ** The extremes of the accessibility ratios *)



(** ** The average paragraph length is a Number *)

Lemma Math_round_of_nonneg (x : JS.number) :
  JS.ge x (JS.of_Z 0) = true -> x <> JS.NaN /\ JS.Math_round x <> JS.RNaN.
Proof.
  destruct x as [s | s | | s m e]; cbn [JS.Math_round]; intros H;
    try discriminate H; split; try discriminate.
  destruct (0 <=? e); discriminate.
Qed.

(** X17: the average paragraph length of a page is never [NaN] (element
    counts are below 2^53): the word count is at least 1, so the
    quotient is [Infinity] when there is no paragraph and a non-negative
    Number otherwise, and the value the report displays,
    [Math.round] of it, is never [NaN] either. *)
Theorem average_is_never_NaN (doc : Document) :
  wordCount doc < 2 ^ 53 ->
  JS.length (sel_p doc) < 2 ^ 53 ->
  JS.ge (avgParagraphLength doc) (JS.of_Z 0) = true
  /\ avgParagraphLength doc <> JS.NaN
  /\ JS.Math_round (avgParagraphLength doc) <> JS.RNaN
  /\ (sel_p doc = [] -> avgParagraphLength doc = JS.Infinity).
Proof.
  intros Hw Hp.
  assert (1 <= wordCount doc) as W by (rewrite wordCount_formula; lia).
  assert (JS.ge (avgParagraphLength doc) (JS.of_Z 0) = true) as G.
  { unfold avgParagraphLength.
    destruct (of_Z_finite (wordCount doc) ltac:(lia)) as [m [e ->]].
    assert (0 <= JS.length (sel_p doc) < 2 ^ 53) as B by (unfold JS.length in *; lia).
    destruct (of_Z_count _ B) as [Z | [n [f Z]]]; rewrite Z.
    - reflexivity.
    - apply (div_of_positive_nonneg m n e f). right. reflexivity. }
  split; [exact G |]. split; [apply Math_round_of_nonneg, G |].
  split; [apply Math_round_of_nonneg, G |].
  intros H. unfold avgParagraphLength. rewrite H.
  destruct (of_Z_finite (wordCount doc) ltac:(lia)) as [m [e ->]]. reflexivity.
Qed.

Lemma average_is_never_NaN_witness :
  wordCount full_doc = 1000
  /\ JS.ge (avgParagraphLength full_doc) (JS.of_Z 0) = true
  /\ avgParagraphLength full_doc <> JS.NaN.
Proof.
  split; [vm_compute; reflexivity |].
  destruct (average_is_never_NaN full_doc
              ltac:(vm_compute; reflexivity) ltac:(vm_compute; reflexivity))
    as [G [N _]].
  split; assumption.
Defined.

